(** * Wallpaper rotator: rotation state manager and wallpaper applier

    A shallow embedding of [wallpaper_rotator.py] (class [WallpaperRotator])
    and the properties of its rotation state machine and of its two-tier
    wallpaper applier.

    Python values read from the state file are JSON values; the state is a
    Python [dict], modelled as a [gmap string json].  Effects (the state file,
    the console, the external helper) are threaded through an explicit
    [world]; exceptions are the [Raise] outcome of a [result]. *)

From Stdlib Require Import ZArith String Ascii List Lia.
From stdpp Require Import gmap strings list fin_maps sorting.

Set Warnings "-register-all".
Local Open Scope string_scope.
Local Open Scope Z_scope.

(** ** Exceptions

    Only classes below [Exception] are modelled: they are what the library
    calls of the program raise.  An exception value is identified with its
    class. *)

Inductive exn : Type :=
  | Exception
  | ValueError
  | JSONDecodeError        (* json.JSONDecodeError, a ValueError *)
  | UnicodeDecodeError     (* a ValueError (through UnicodeError) *)
  | OSError                (* IOError is an alias of OSError *)
  | FileNotFoundError
  | PermissionError
  | TypeError
  | AttributeError
  | IndexError
  | RuntimeError
  | TimeoutExpired.        (* subprocess.TimeoutExpired *)

Definition IOError : exn := OSError.

Global Instance exn_eq_dec : EqDecision exn.
Proof. solve_decision. Defined.

(** The direct base class, [None] for [Exception] itself. *)
Definition exn_base (e : exn) : option exn :=
  match e with
  | Exception => None
  | JSONDecodeError | UnicodeDecodeError => Some ValueError
  | FileNotFoundError | PermissionError => Some OSError
  | ValueError | OSError | TypeError | AttributeError | IndexError
  | RuntimeError | TimeoutExpired => Some Exception
  end.

Fixpoint isinstance_fuel (fuel : nat) (e cls : exn) : bool :=
  if bool_decide (e = cls) then true
  else match fuel with
       | O => false
       | S fuel' =>
           match exn_base e with
           | Some b => isinstance_fuel fuel' b cls
           | None => false
           end
       end.

(** [isinstance e cls]: [e] is caught by [except cls].  The hierarchy above
    has depth 2. *)
Definition isinstance (e cls : exn) : bool := isinstance_fuel 3 e cls.

Inductive result (A : Type) : Type :=
  | Ok (a : A)
  | Raise (e : exn).
Arguments Ok {A} a.
Arguments Raise {A} e.

(** ** JSON values

    What [json.load] returns.  Integers are unbounded.  A float is kept as
    the exact value of the double: not-a-number, an infinity, or
    [m * 2^e]. *)

Inductive pyfloat : Type :=
  | FNaN
  | FInf (negative : bool)
  | FFin (m e : Z).

Inductive json : Type :=
  | JNull
  | JBool (b : bool)
  | JInt (z : Z)
  | JFloat (f : pyfloat)
  | JString (s : string)
  | JArray (l : list json)
  | JObject (m : gmap string json).

(** [n == f] for an int [n] and a float [f]; Python compares the two
    exactly. *)
Definition float_eq_int (f : pyfloat) (n : Z) : bool :=
  match f with
  | FNaN | FInf _ => false
  | FFin m e => if 0 <=? e then n =? m * 2 ^ e else m =? n * 2 ^ (- e)
  end.

(** [n != v] for an int [n]: numeric comparison against int, bool and float,
    and [True] against every other type. *)
Definition py_int_ne (n : Z) (v : json) : bool :=
  match v with
  | JInt z => negb (n =? z)
  | JBool b => negb (n =? (if b then 1 else 0))
  | JFloat f => negb (float_eq_int f n)
  | JNull | JString _ | JArray _ | JObject _ => true
  end.

(** A number produced by arithmetic.  The value of a float result is not
    tracked: the program only ever uses it as a list index, which raises
    [TypeError] for any float. *)
Inductive pynum : Type :=
  | NInt (z : Z)
  | NFloat.

(** [v + 1] *)
Definition py_add_one (v : json) : result pynum :=
  match v with
  | JInt z => Ok (NInt (z + 1))
  | JBool b => Ok (NInt ((if b then 1 else 0) + 1))
  | JFloat _ => Ok NFloat
  | JNull | JString _ | JArray _ | JObject _ => Raise TypeError
  end.

(** [x % n] for a list length [n > 0]; Python's [%] takes the sign of the
    divisor, as [Z.modulo] does. *)
Definition py_mod (x : pynum) (n : Z) : pynum :=
  match x with
  | NInt z => NInt (z mod n)
  | NFloat => NFloat
  end.

(** Back to a stored value.  The float case is never reached with a number
    that has indexed a list. *)
Definition json_of_num (x : pynum) : json :=
  match x with
  | NInt z => JInt z
  | NFloat => JFloat FNaN
  end.

(** [l[i]]: negative indices count from the end, out of range raises
    [IndexError], a float index raises [TypeError]. *)
Definition py_getitem {A} (l : list A) (i : pynum) : result A :=
  match i with
  | NFloat => Raise TypeError
  | NInt z =>
      let n := Z.of_nat (length l) in
      let k := if z <? 0 then z + n else z in
      if (0 <=? k) && (k <? n) then
        match l !! Z.to_nat k with
        | Some x => Ok x
        | None => Raise IndexError
        end
      else Raise IndexError
  end.

(** ** The world *)

(** A directory entry as [iterdir] yields it, with the [pathlib] attributes
    the program reads. *)
Record dir_entry : Type := DirEntry {
  entry_path : string;      (* str(file_path) *)
  entry_is_file : bool;     (* file_path.is_file() *)
  entry_suffix : string;    (* file_path.suffix *)
}.

(** The state file as [load_state] meets it.  It is not an image (its
    default name is [.wallpaper_state.json]), so it is no entry of the
    listing and writing it does not change the listing. *)
Inductive file_status : Type :=
  | Missing                 (* state_file.exists() is False *)
  | Unreadable (e : exn)    (* open() or json.load() raises e *)
  | Holds (v : json).       (* the file is the JSON text of v *)

Inductive message : Type :=
  | MsgNoImages
  | MsgFolderChanged (n : nat)
  | MsgSaveWarning (e : exn)
  | MsgRotationReset
  | MsgFallback             (* "PowerShell method failed, falling back ..." *)
  | MsgErrorSetting (e : exn)
  | MsgModuleNotInstalled
  | MsgCommandNotFound
  | MsgPowerShellError (stderr : string)
  | MsgTimedOut
  | MsgExecutionError (e : exn).

Inductive event : Type :=
  | Printed (m : message)
  | RunPowerShell (wallpaper_path : string)          (* subprocess.run *)
  | SystemParametersInfoW (wallpaper_path : string). (* the native call *)

Global Instance message_eq_dec : EqDecision message.
Proof. solve_decision. Defined.

Global Instance event_eq_dec : EqDecision event.
Proof. solve_decision. Defined.

(** Outcome of [subprocess.run] on the helper script. *)
Inductive ps_outcome : Type :=
  | PsRaises (e : exn)
  | PsCompleted (returncode : Z) (stdout stderr : string).

Record world : Type := World {
  folder : list dir_entry;                 (* wallpaper_folder.iterdir() *)
  state_file : file_status;
  state_writable : bool;                   (* open(state_file, "w") succeeds;
                                              if not, the file is left as it is *)
  resolve : string -> result string;      (* str(image_path.resolve()) *)
  powershell : string -> ps_outcome;
  native_call : string -> result Z;        (* SystemParametersInfoW(...) *)
  trace : list event;                      (* oldest first *)
}.

Definition set_state_file (f : file_status) (w : world) : world :=
  {| folder := folder w; state_file := f; state_writable := state_writable w;
     resolve := resolve w; powershell := powershell w;
     native_call := native_call w; trace := trace w |}.

Definition add_event (ev : event) (w : world) : world :=
  {| folder := folder w; state_file := state_file w;
     state_writable := state_writable w;
     resolve := resolve w; powershell := powershell w;
     native_call := native_call w; trace := trace w ++ [ev] |}.

(** ** A state-and-exception monad over the world *)

Definition M (A : Type) : Type := world -> result A * world.

Definition ret {A} (a : A) : M A := fun w => (Ok a, w).
Definition raise {A} (e : exn) : M A := fun w => (Raise e, w).

Definition bind {A B} (c : M A) (k : A -> M B) : M B :=
  fun w =>
    match c w with
    | (Ok a, w') => k a w'
    | (Raise e, w') => (Raise e, w')
    end.

Definition lift {A} (r : result A) : M A := fun w => (r, w).

Global Instance result_ret : MRet result := @Ok.
Global Instance result_bind : MBind result := fun A B k r =>
  match r with
  | Ok a => k a
  | Raise e => Raise e
  end.

(** [try: body / except <classes> as e: handler / except ...]: the first
    clause one of whose classes [e] is an instance of handles it; an
    exception no clause matches propagates. *)
Fixpoint find_handler {A} (e : exn) (clauses : list (list exn * (exn -> M A)))
    : option (exn -> M A) :=
  match clauses with
  | [] => None
  | (classes, handler) :: rest =>
      if existsb (isinstance e) classes then Some handler
      else find_handler e rest
  end.

Definition try_except {A} (body : M A)
    (clauses : list (list exn * (exn -> M A))) : M A :=
  fun w =>
    match body w with
    | (Ok a, w') => (Ok a, w')
    | (Raise e, w') =>
        match find_handler e clauses with
        | Some handler => handler e w'
        | None => (Raise e, w')
        end
    end.

Definition print (m : message) : M unit :=
  fun w => (Ok tt, add_event (Printed m) w).

Global Instance M_ret : MRet M := @ret.
Global Instance M_bind : MBind M := fun A B k c => bind c k.

(** ** The rotation state manager *)

Definition supported_formats : list string :=
  [".jpg"; ".jpeg"; ".png"; ".bmp"; ".gif"; ".tiff"; ".webp"].

(** [str.lower] on the ASCII letters, which is all a supported suffix has. *)
Definition lower_ascii (c : ascii) : ascii :=
  let n := nat_of_ascii c in
  if ((65 <=? n) && (n <=? 90))%nat then ascii_of_nat (n + 32) else c.

Fixpoint lower (s : string) : string :=
  match s with
  | EmptyString => EmptyString
  | String c s' => String (lower_ascii c) (lower s')
  end.

Definition is_image (d : dir_entry) : bool :=
  entry_is_file d && bool_decide (lower (entry_suffix d) ∈ supported_formats).

Section Rotator.

(** The order of [Path] objects that [sorted] uses.  It depends on the path
    flavour (case-sensitive on POSIX, case-folded on Windows), so it is a
    parameter. *)
Variable path_le : string -> string -> bool.

Fixpoint insert_sorted (p : string) (l : list string) : list string :=
  match l with
  | [] => [p]
  | q :: l' => if path_le p q then p :: l else q :: insert_sorted p l'
  end.

Definition sorted (l : list string) : list string :=
  foldr insert_sorted [] l.

(** The listing [get_image_files] computes: the entries that are files with
    a supported suffix, sorted. *)
Definition image_listing (w : world) : list string :=
  sorted (entry_path <$> List.filter is_image (folder w)).

(** [get_image_files] *)
Definition get_image_files : M (list string) :=
  fun w => (Ok (image_listing w), w).

Definition default_state : gmap string json :=
  <["current_index" := JInt (-1)]>
  (<["last_wallpaper" := JNull]>
  (<["image_count" := JInt 0]>
  (<["order" := JString "sequential"]> ∅))).

(** [open(state_file, "r")] followed by [json.load]. *)
Definition read_json : M json :=
  fun w =>
    match state_file w with
    | Missing => (Raise FileNotFoundError, w)
    | Unreadable e => (Raise e, w)
    | Holds v => (Ok v, w)
    end.

Definition exists_state_file : M bool :=
  fun w => (Ok (match state_file w with Missing => false | _ => true end), w).

(** [load_state] *)
Definition load_state : M json :=
  ex ← exists_state_file;
  if negb ex then mret (JObject default_state)
  else
    try_except read_json
      [([JSONDecodeError; IOError], fun _ => mret (JObject default_state))].

(** [open(state_file, "w")] followed by [json.dump]: the file then holds the
    JSON text of [state], which [json.load] reads back as [state]. *)
Definition write_json (state : json) : M unit :=
  fun w =>
    if state_writable w then (Ok tt, set_state_file (Holds state) w)
    else (Raise PermissionError, w).

(** [save_state] *)
Definition save_state (state : json) : M unit :=
  try_except (write_json state)
    [([IOError], fun e => print (MsgSaveWarning e))].

(** [state.get(key, default)]; anything but a dict has no [get]. *)
Definition dict_get (state : json) (key : string) (dflt : json) : result json :=
  match state with
  | JObject m => Ok (default dflt (m !! key))
  | _ => Raise AttributeError
  end.

(** [state[key] = value]; no other JSON value takes a string subscript. *)
Definition dict_setitem (state : json) (key : string) (value : json) : result json :=
  match state with
  | JObject m => Ok (JObject (<[key := value]> m))
  | _ => Raise TypeError
  end.

(** [state.update({...})], the pairs inserted left to right. *)
Definition dict_update (state : json) (items : list (string * json)) : result json :=
  match state with
  | JObject m => Ok (JObject (foldl (fun acc kv => <[kv.1 := kv.2]> acc) m items))
  | _ => Raise AttributeError
  end.

(** Lines 185-188: the index the selection starts from.  A listing whose
    length is not the recorded [image_count] discards the recorded index. *)
Definition drift_check (n : nat) (current_index image_count : json) : M json :=
  if py_int_ne (Z.of_nat n) image_count then
    print (MsgFolderChanged n);; mret (JInt (-1))
  else mret current_index.

(** [[i for i in range(n) if i != current_index]] *)
Definition available_indices (n : nat) (current_index : json) : list Z :=
  List.filter (fun i => py_int_ne i current_index) (Z.of_nat <$> seq 0 n).

(** [random.choice(l)]: [IndexError] on an empty sequence, else the element
    at a position below [len(l)].  The generator is the number [rnd]; reduced
    below the length it reaches every position, so every outcome of
    [random.choice] is the outcome for some [rnd]. *)
Definition random_choice (rnd : nat) (l : list Z) : result Z :=
  match l !! (rnd `mod` length l)%nat with
  | Some i => Ok i
  | None => Raise IndexError
  end.

(** Lines 190-201: the next index. *)
Definition select_index (rnd : nat) (order : string) (n : nat)
    (current_index : json) : result pynum :=
  if String.eqb order "random" then
    if (1 <? n)%nat then
      i ← random_choice rnd (available_indices n current_index); Ok (NInt i)
    else Ok (NInt 0)
  else
    x ← py_add_one current_index; Ok (py_mod x (Z.of_nat n)).

(** [get_next_wallpaper]; [rnd] is what the random generator yields during
    the call. *)
Definition get_next_wallpaper (rnd : nat) (order : string) : M (option string) :=
  image_files ← get_image_files;
  if bool_decide (image_files = []) then
    print MsgNoImages;; mret None
  else
    state ← load_state;
    current_index ← lift (dict_get state "current_index" (JInt (-1)));
    image_count ← lift (dict_get state "image_count" (JInt 0));
    current_index ← drift_check (length image_files) current_index image_count;
    next_index ← lift (select_index rnd order (length image_files) current_index);
    next_wallpaper ← lift (py_getitem image_files next_index);
    state ← lift (dict_update state
      [("current_index", json_of_num next_index);
       ("last_wallpaper", JString next_wallpaper);
       ("image_count", JInt (Z.of_nat (length image_files)));
       ("order", JString order)]);
    save_state state;;
    mret (Some next_wallpaper).

(** [set_order] *)
Definition set_order (order : string) : M unit :=
  if negb (bool_decide (order ∈ ["sequential"; "random"])) then
    raise ValueError
  else
    state ← load_state;
    state ← lift (dict_setitem state "order" (JString order));
    save_state state.

(** [reset_rotation] *)
Definition reset_rotation : M unit :=
  state ← load_state;
  state ← lift (dict_setitem state "current_index" (JInt (-1)));
  save_state state;;
  print MsgRotationReset.

End Rotator.

(** ** The wallpaper applier *)

(** [needle in haystack] on strings *)
Fixpoint contains (needle haystack : string) : bool :=
  String.prefix needle haystack ||
  match haystack with
  | EmptyString => false
  | String _ rest => contains needle rest
  end.

Definition resolve_path (image_path : string) : M string :=
  fun w => (resolve w image_path, w).

(** [subprocess.run(["powershell", ...], timeout=30, ...)] *)
Definition run_powershell (wallpaper_path : string) : M (Z * string * string) :=
  fun w =>
    let w' := add_event (RunPowerShell wallpaper_path) w in
    match powershell w wallpaper_path with
    | PsRaises e => (Raise e, w')
    | PsCompleted returncode stdout stderr => (Ok (returncode, stdout, stderr), w')
    end.

(** [ctypes.windll.user32.SystemParametersInfoW(20, 0, wallpaper_path, 3)] *)
Definition call_native (wallpaper_path : string) : M Z :=
  fun w => (native_call w wallpaper_path,
            add_event (SystemParametersInfoW wallpaper_path) w).

(** [_set_wallpaper_all_desktops_powershell] *)
Definition _set_wallpaper_all_desktops_powershell (wallpaper_path : string) : M bool :=
  try_except
    ('(returncode, stdout, stderr) ← run_powershell wallpaper_path;
     if (returncode =? 0) && contains "SUCCESS" stdout then mret true
     else if contains "MODULE_NOT_FOUND" stdout then
       print MsgModuleNotInstalled;; mret false
     else if contains "COMMAND_NOT_FOUND" stdout then
       print MsgCommandNotFound;; mret false
     else
       print (MsgPowerShellError stderr);; mret false : M bool)
    [([TimeoutExpired], fun _ => print MsgTimedOut;; mret false);
     ([Exception], fun e => print (MsgExecutionError e);; mret false)].

(** [set_wallpaper] *)
Definition set_wallpaper (image_path : string) : M bool :=
  try_except
    (wallpaper_path ← resolve_path image_path;
     ok ← _set_wallpaper_all_desktops_powershell wallpaper_path;
     if (ok : bool) then mret true
     else
       print MsgFallback;;
       result ← call_native wallpaper_path;
       mret (negb (result =? 0)) : M bool)
    [([Exception], fun e => print (MsgErrorSetting e);; mret false)].

(** ** Observations used in the statements *)

(** The value [load_state] returns, as a function of the state file. *)
Definition loaded (f : file_status) : result json :=
  match f with
  | Missing => Ok (JObject default_state)
  | Unreadable e =>
      if isinstance e JSONDecodeError || isinstance e IOError
      then Ok (JObject default_state) else Raise e
  | Holds v => Ok v
  end.

(** The dict [get_next_wallpaper] saves after choosing index [i], image [p]. *)
Definition rotated_state (m : gmap string json) (i : pynum) (p : string)
    (n : nat) (order : string) : gmap string json :=
  <["order" := JString order]>
  (<["image_count" := JInt (Z.of_nat n)]>
  (<["last_wallpaper" := JString p]>
  (<["current_index" := json_of_num i]> m))).

Definition recorded_index (m : gmap string json) : json :=
  default (JInt (-1)) (m !! "current_index").

Definition recorded_count (m : gmap string json) : json :=
  default (JInt 0) (m !! "image_count").

(** [k] successive rotations; [rnd j] is the generator's draw during the
    [j]-th of them (counting from 0). *)
Fixpoint rotations (path_le : string -> string -> bool) (rnd : nat -> nat)
    (order : string) (k : nat) (w : world) : world :=
  match k with
  | O => w
  | S k' =>
      (get_next_wallpaper path_le (rnd k') order
         (rotations path_le rnd order k' w)).2
  end.

(** The invariant of the data model: the recorded index is an int that is
    -1 or below the recorded image count. *)
Definition index_invariant (m : gmap string json) : bool :=
  match recorded_index m with
  | JInt c =>
      (c =? -1) ||
      match recorded_count m with
      | JInt n => c <? n
      | _ => false
      end
  | _ => false
  end.

Definition persisted_invariant (w : world) : bool :=
  match (load_state w).1 with
  | Ok (JObject m) => index_invariant m
  | _ => false
  end.

(** The events a run from [w] to [w'] added to the trace. *)
Definition new_events (w w' : world) : list event :=
  drop (length (trace w)) (trace w').

Definition is_tier1 (ev : event) : bool :=
  match ev with RunPowerShell _ => true | _ => false end.

Definition is_tier2 (ev : event) : bool :=
  match ev with SystemParametersInfoW _ => true | _ => false end.

Definition attempts (tier : event -> bool) (t : list event) : nat :=
  length (List.filter tier t).

(** Tier 1 succeeds: the helper exits with 0 and prints SUCCESS. *)
Definition helper_succeeds (o : ps_outcome) : bool :=
  match o with
  | PsCompleted returncode stdout _ => (returncode =? 0) && contains "SUCCESS" stdout
  | PsRaises _ => false
  end.

(** Tier 2 succeeds: the native call returns a non-zero value. *)
Definition native_succeeds (r : result Z) : bool :=
  match r with
  | Ok z => negb (z =? 0)
  | Raise _ => false
  end.

(** What tier 1 prints when it does not succeed. *)
Definition helper_failure_message (o : ps_outcome) : message :=
  match o with
  | PsRaises e =>
      if isinstance e TimeoutExpired then MsgTimedOut else MsgExecutionError e
  | PsCompleted _ stdout stderr =>
      if contains "MODULE_NOT_FOUND" stdout then MsgModuleNotInstalled
      else if contains "COMMAND_NOT_FOUND" stdout then MsgCommandNotFound
      else MsgPowerShellError stderr
  end.

(** ** Status, capability probe and the command line *)

(** [a <= f] and [f < n] for ints [a], [n] and a float [f], compared
    exactly. *)
Definition float_ge_int (f : pyfloat) (a : Z) : bool :=
  match f with
  | FNaN => false
  | FInf negative => negb negative
  | FFin m e => if 0 <=? e then a <=? m * 2 ^ e else a * 2 ^ (- e) <=? m
  end.

Definition float_lt_int (f : pyfloat) (n : Z) : bool :=
  match f with
  | FNaN => false
  | FInf negative => negative
  | FFin m e => if 0 <=? e then m * 2 ^ e <? n else m <? n * 2 ^ (- e)
  end.

(** [a <= v] for an int [a]: ints, bools and floats are ordered against an
    int, every other type raises [TypeError]. *)
Definition py_int_le (a : Z) (v : json) : result bool :=
  match v with
  | JInt z => Ok (a <=? z)
  | JBool b => Ok (a <=? (if b then 1 else 0))
  | JFloat f => Ok (float_ge_int f a)
  | JNull | JString _ | JArray _ | JObject _ => Raise TypeError
  end.

(** [v < n] for an int [n] *)
Definition py_lt_int (v : json) (n : Z) : result bool :=
  match v with
  | JInt z => Ok (z <? n)
  | JBool b => Ok ((if b then 1 else 0) <? n)
  | JFloat f => Ok (float_lt_int f n)
  | JNull | JString _ | JArray _ | JObject _ => Raise TypeError
  end.

(** [a <= v < n]: [v] is compared with [n] only if [a <= v] holds. *)
Definition py_chained (a : Z) (v : json) (n : Z) : result bool :=
  lower_ok ← py_int_le a v;
  if (lower_ok : bool) then py_lt_int v n else Ok false.

(** [state[key]].  A missing key raises [KeyError], which is not among the
    modelled classes: it shows as its base [Exception]. *)
Definition dict_getitem (state : json) (key : string) : result json :=
  match state with
  | JObject m =>
      match m !! key with
      | Some v => Ok v
      | None => Raise Exception
      end
  | _ => Raise TypeError
  end.

(** A stored value used as a list index: an int or a bool indexes, a float
    is refused by the list, any other type as well. *)
Definition index_of_json (v : json) : result pynum :=
  match v with
  | JInt z => Ok (NInt z)
  | JBool b => Ok (NInt (if b then 1 else 0))
  | JFloat _ => Ok NFloat
  | JNull | JString _ | JArray _ | JObject _ => Raise TypeError
  end.

(** The dict [get_status] returns. *)
Record status : Type := Status {
  total_images : nat;
  status_current_index : json;
  current_wallpaper : option string;
  status_order : json;
  status_wallpaper_folder : string;
}.

(** Outcome of a command-line run: what is printed by [rotate_wallpaper]
    and [main] themselves. *)
Inductive cli_message : Type :=
  | CliSetting (name : string)        (* "Setting wallpaper to: ..." *)
  | CliChanged                        (* "Wallpaper changed successfully!" *)
  | CliFailed                         (* "Failed to change wallpaper." *)
  | CliSupportAvailable
  | CliSupportMissing
  | CliRunSetup
  | CliStatusHeader
  | CliStatusFolder (folder_name : string)
  | CliStatusTotal (n : nat)
  | CliStatusIndex (v : json)
  | CliStatusWallpaper (name : option string)
  | CliStatusOrder (v : json)
  | CliStatusSupport (available : bool)
  | CliWarnNoSupport
  | CliWarnCurrentOnly
  | CliWarnRunSetup
  | CliBlank
  | CliError (e : exn).

(** A line of the console of a run: an event of the rotator or a line of
    the command line, in the order they happen. *)
Inductive line : Type :=
  | Base (ev : event)
  | Cli (m : cli_message).

Record session : Type := Session {
  sworld : world;
  console : list line;
}.

Definition C (A : Type) : Type := session -> result A * session.

Global Instance C_ret : MRet C := fun A a s => (Ok a, s).
Global Instance C_bind : MBind C := fun A B k c s =>
  match c s with
  | (Ok a, s') => k a s'
  | (Raise e, s') => (Raise e, s')
  end.

(** Run an operation of the rotator inside a session; its events go to the
    console. *)
Definition in_world {A} (c : M A) : C A :=
  fun s =>
    let '(r, w') := c (sworld s) in
    (r, {| sworld := w';
           console := console s ++ (Base <$> new_events (sworld s) w') |}).

Definition say (m : cli_message) : C unit :=
  fun s => (Ok tt, {| sworld := sworld s; console := console s ++ [Cli m] |}).

(** [try: body / except Exception as e: handler] at the command line. *)
Definition try_except_cli {A} (body : C A) (handler : exn -> C A) : C A :=
  fun s =>
    match body s with
    | (Ok a, s') => (Ok a, s')
    | (Raise e, s') =>
        if isinstance e Exception then handler e s' else (Raise e, s')
    end.

(** The parsed arguments [main] reads. *)
Record arguments : Type := Arguments_ {
  arg_order : string;
  arg_reset : bool;
  arg_status : bool;
  arg_setup : bool;
  arg_check_support : bool;
  arg_quiet : bool;
}.

(** [WallpaperRotator.__init__]: the folder must exist. *)
Definition init_rotator (folder_exists : bool) : M unit :=
  if folder_exists then mret tt else raise FileNotFoundError.

(** [check_virtualdesktop_support]; [probe] is the outcome of its own
    [subprocess.run].  The probe applies nothing and is no tier. *)
Definition check_virtualdesktop_support (probe : ps_outcome) : M bool :=
  try_except
    (match probe with
     | PsRaises e => raise e
     | PsCompleted returncode stdout _ =>
         mret ((returncode =? 0) && contains "SUPPORTED" stdout)
     end)
    [([Exception], fun _ => mret false)].

Section CommandLine.

Variable path_le : string -> string -> bool.

(** [Path.name], the final component of a path. *)
Variable name_of : string -> string.

(** [str(self.wallpaper_folder)] *)
Variable wallpaper_folder : string.

(** [get_status] *)
Definition get_status : M status :=
  image_files ← get_image_files path_le;
  state ← load_state;
  index ← lift (dict_get state "current_index" (JInt (-1)));
  in_range ← lift (py_chained 0 index (Z.of_nat (length image_files)));
  current ←
    (if (in_range : bool) then
       v ← lift (dict_getitem state "current_index");
       i ← lift (index_of_json v);
       p ← lift (py_getitem image_files i);
       mret (Some (name_of p))
     else mret None);
  index ← lift (dict_get state "current_index" (JInt (-1)));
  order ← lift (dict_get state "order" (JString "sequential"));
  mret {| total_images := length image_files;
          status_current_index := index;
          current_wallpaper := current;
          status_order := order;
          status_wallpaper_folder := wallpaper_folder |}.

(** [rotate_wallpaper] *)
Definition rotate_wallpaper (rnd : nat) (order : string) (verbose : bool) : C bool :=
  next_wallpaper ← in_world (get_next_wallpaper path_le rnd order);
  match next_wallpaper with
  | None => mret false
  | Some p =>
      (if verbose then say (CliSetting (name_of p)) else mret tt);;
      success ← in_world (set_wallpaper p);
      (if (success : bool) && verbose then say CliChanged
       else if verbose then say CliFailed
       else mret tt);;
      mret success
  end.

(** [main] after [parse_args]; the result is the exit code of the process
    ([exit(1)], or 0 when [main] returns).  [folder_exists] is what the
    constructor finds, [probe] the outcome of the capability probe, [rnd]
    the draw of the random generator. *)
Definition main (args : arguments) (folder_exists : bool) (probe : ps_outcome)
    (rnd : nat) : C Z :=
  try_except_cli
    (in_world (init_rotator folder_exists);;
     if arg_check_support args then
       supported ← in_world (check_virtualdesktop_support probe);
       (if (supported : bool) then say CliSupportAvailable
        else say CliSupportMissing;; say CliRunSetup);;
       mret 0
     else if arg_status args then
       st ← in_world get_status;
       say CliStatusHeader;;
       say (CliStatusFolder (status_wallpaper_folder st));;
       say (CliStatusTotal (total_images st));;
       say (CliStatusIndex (status_current_index st));;
       say (CliStatusWallpaper (current_wallpaper st));;
       say (CliStatusOrder (status_order st));;
       supported ← in_world (check_virtualdesktop_support probe);
       say (CliStatusSupport supported);;
       mret 0
     else if arg_reset args then
       in_world reset_rotation;;
       mret 0
     else
       (if negb (arg_quiet args) then
          supported ← in_world (check_virtualdesktop_support probe);
          if negb supported then
            say CliWarnNoSupport;; say CliWarnCurrentOnly;;
            say CliWarnRunSetup;; say CliBlank
          else mret tt
        else mret tt);;
       in_world (set_order (arg_order args));;
       success ← rotate_wallpaper rnd (arg_order args) (negb (arg_quiet args));
       if negb success then mret 1 else mret 0)
    (fun e => say (CliError e);; mret 1).

End CommandLine.

(** An operation of the rotator that leaves the world as it found it. *)
Definition keeps_world {A} (c : M A) : Prop := forall w, (c w).2 = w.

(** A command-line computation that leaves the world of the session as it
    found it, and one whose result, if any, is an exit code 0 or 1. *)
Definition keeps_sworld {A} (c : C A) : Prop := forall s, sworld (c s).2 = sworld s.

Definition exits_0_or_1 (c : C Z) : Prop :=
  forall s, match (c s).1 with
            | Ok code => code = 0 \/ code = 1
            | Raise _ => True
            end.

(** The tier attempts among the lines of a console. *)
Definition console_attempts (tier : event -> bool) (lines : list line) : nat :=
  length (List.filter (fun l => match l with Base ev => tier ev | Cli _ => false end)
                      lines).

(** Two worlds with the same folder and the same collaborators. *)
Definition same_surroundings (w w' : world) : Prop :=
  folder w' = folder w /\ resolve w' = resolve w /\
  powershell w' = powershell w /\ native_call w' = native_call w.

(** What [main] runs before it rotates: the capability warning. *)
Definition support_warning (quiet : bool) (probe : ps_outcome) : C unit :=
  if negb quiet then
    supported ← in_world (check_virtualdesktop_support probe);
    if negb supported then
      say CliWarnNoSupport;; say CliWarnCurrentOnly;;
      say CliWarnRunSetup;; say CliBlank
    else mret tt
  else mret tt.

(** ** Example worlds *)

Definition demo_folder : list dir_entry :=
  [DirEntry "c.gif" true ".gif";
   DirEntry "notes.txt" true ".txt";
   DirEntry "a.png" true ".png";
   DirEntry "old.jpg" false ".jpg";
   DirEntry "b.JPG" true ".JPG"].

(** No state file yet; the helper is not installed, the native call works. *)
Definition fresh_world : world :=
  {| folder := demo_folder;
     state_file := Missing;
     state_writable := true;
     resolve := fun p => Ok p;
     powershell := fun _ => PsRaises FileNotFoundError;
     native_call := fun _ => Ok 1;
     trace := [] |}.

Definition with_state (f : file_status) (writable : bool) (w : world) : world :=
  {| folder := folder w; state_file := f; state_writable := writable;
     resolve := resolve w; powershell := powershell w;
     native_call := native_call w; trace := trace w |}.

(** The state file cannot be written (a read-only folder, say). *)
Definition readonly_world : world := with_state Missing false fresh_world.

Definition dict_of (index count : Z) : gmap string json :=
  <["current_index" := JInt index]> (<["image_count" := JInt count]> default_state).

(** A state file recording [index] and [count]. *)
Definition recorded_world (index count : Z) (writable : bool) : world :=
  with_state (Holds (JObject (dict_of index count))) writable fresh_world.

(** A folder without images. *)
Definition empty_world : world :=
  {| folder := [DirEntry "notes.txt" true ".txt"; DirEntry "old.jpg" false ".jpg"];
     state_file := Holds (JObject (dict_of 1 3));
     state_writable := true;
     resolve := fun p => Ok p;
     powershell := fun _ => PsRaises FileNotFoundError;
     native_call := fun _ => Ok 1;
     trace := [] |}.

(** The path cannot be resolved. *)
Definition unresolvable_world : world :=
  {| folder := demo_folder;
     state_file := Missing;
     state_writable := true;
     resolve := fun _ => Raise RuntimeError;
     powershell := fun _ => PsCompleted 0 "SUCCESS" "";
     native_call := fun _ => Ok 1;
     trace := [] |}.

(** The same folder, its entries yielded in the opposite order. *)
Definition shuffled_world : world :=
  {| folder := reverse demo_folder;
     state_file := Missing;
     state_writable := true;
     resolve := fun p => Ok p;
     powershell := fun _ => PsRaises FileNotFoundError;
     native_call := fun _ => Ok 1;
     trace := [] |}.

(** A state file that is JSON but no object. *)
Definition list_state_world : world :=
  with_state (Holds (JArray [])) true fresh_world.

(** A state whose index is a string. *)
Definition odd_dict : gmap string json :=
  <["current_index" := JString "x"]> (dict_of 0 3).

Definition odd_world : world :=
  with_state (Holds (JObject odd_dict)) true fresh_world.

(** A state file that does not decode. *)
Definition undecodable_world : world :=
  with_state (Unreadable UnicodeDecodeError) true fresh_world.

Definition plain_args : arguments :=
  {| arg_order := "sequential"; arg_reset := false; arg_status := false;
     arg_setup := false; arg_check_support := false; arg_quiet := false |}.

Definition status_args : arguments :=
  {| arg_order := "sequential"; arg_reset := true; arg_status := true;
     arg_setup := false; arg_check_support := false; arg_quiet := false |}.

Definition reset_args : arguments :=
  {| arg_order := "sequential"; arg_reset := true; arg_status := false;
     arg_setup := false; arg_check_support := false; arg_quiet := true |}.

(** The probe finds the helper module missing. *)
Definition probe_missing : ps_outcome := PsCompleted 0 "MODULE_MISSING" "".

(** * Properties *)

(** ** Exception classes *)

Example isinstance_examples :
  isinstance FileNotFoundError IOError = true /\
  isinstance PermissionError IOError = true /\
  isinstance JSONDecodeError ValueError = true /\
  isinstance UnicodeDecodeError ValueError = true /\
  isinstance UnicodeDecodeError JSONDecodeError = false /\
  isinstance UnicodeDecodeError IOError = false /\
  isinstance TimeoutExpired Exception = true.
Proof. repeat split. Qed.

(** ** Running the monad *)

Lemma load_state_run (w : world) : load_state w = (loaded (state_file w), w).
Proof.
  unfold load_state, exists_state_file, try_except, read_json, mbind, M_bind, bind, loaded.
  destruct (state_file w) as [|e|v] eqn:E; simpl; rewrite ?E; simpl; try reflexivity.
  rewrite orb_false_r.
  destruct (isinstance e JSONDecodeError || isinstance e IOError); reflexivity.
Qed.

(** The two outcomes of [save_state]: the file now holds the state, or a
    warning is printed and the file is as before.  It never raises. *)
Lemma save_state_run (state : json) (w : world) :
  save_state state w =
    if state_writable w then (Ok tt, set_state_file (Holds state) w)
    else (Ok tt, add_event (Printed (MsgSaveWarning PermissionError)) w).
Proof.
  unfold save_state, try_except, write_json.
  destruct (state_writable w); reflexivity.
Qed.

(** ** Order change and reset, step by step *)

Lemma set_order_run (order : string) (w : world) (m : gmap string json) :
  order = "sequential" \/ order = "random" ->
  loaded (state_file w) = Ok (JObject m) ->
  set_order order w =
    if state_writable w
    then (Ok tt, set_state_file (Holds (JObject (<["order" := JString order]> m))) w)
    else (Ok tt, add_event (Printed (MsgSaveWarning PermissionError)) w).
Proof.
  intros Hvalid Hload. unfold set_order.
  rewrite bool_decide_eq_true_2
    by (rewrite !elem_of_cons; destruct Hvalid; subst; auto).
  unfold mbind, M_bind, bind. simpl.
  rewrite load_state_run, Hload. simpl. apply save_state_run.
Qed.

Lemma set_order_invalid (order : string) (w : world) :
  order <> "sequential" -> order <> "random" ->
  set_order order w = (Raise ValueError, w).
Proof.
  intros H1 H2. unfold set_order.
  rewrite bool_decide_eq_false_2; [reflexivity|].
  rewrite !not_elem_of_cons. repeat split; [assumption..|apply not_elem_of_nil].
Qed.

Lemma reset_rotation_run (w : world) (m : gmap string json) :
  loaded (state_file w) = Ok (JObject m) ->
  reset_rotation w =
    (Ok tt,
     add_event (Printed MsgRotationReset)
       (if state_writable w
        then set_state_file (Holds (JObject (<["current_index" := JInt (-1)]> m))) w
        else add_event (Printed (MsgSaveWarning PermissionError)) w)).
Proof.
  intros Hload. unfold reset_rotation, mbind, M_bind, bind.
  rewrite load_state_run, Hload. simpl. rewrite save_state_run.
  destruct (state_writable w); reflexivity.
Qed.

(** ** The listing *)

Lemma insert_sorted_perm (path_le : string -> string -> bool) (p : string)
    (l : list string) :
  insert_sorted path_le p l ≡ₚ p :: l.
Proof.
  induction l as [|q l IH]; simpl; [reflexivity|].
  destruct (path_le p q); [reflexivity|].
  rewrite IH. apply Permutation_swap.
Qed.

(** Sorting only reorders: the listing has exactly the image entries of the
    folder, so its length is the number of supported images. *)
Lemma sorted_perm (path_le : string -> string -> bool) (l : list string) :
  sorted path_le l ≡ₚ l.
Proof.
  induction l as [|p l IH]; simpl; [reflexivity|].
  rewrite insert_sorted_perm, IH. reflexivity.
Qed.

Lemma image_listing_length (path_le : string -> string -> bool) (w : world) :
  length (image_listing path_le w) = length (List.filter is_image (folder w)).
Proof.
  unfold image_listing. rewrite (Permutation_length (sorted_perm path_le _)).
  apply length_fmap.
Qed.

(** ** Index selection *)

Lemma py_getitem_in_range {A} (l : list A) (i : Z) :
  0 <= i < Z.of_nat (length l) ->
  exists x, l !! Z.to_nat i = Some x /\ py_getitem l (NInt i) = Ok x.
Proof.
  intros Hi. unfold py_getitem.
  destruct (Z.ltb_spec i 0) as [?|_]; [lia|].
  destruct (Z.leb_spec 0 i) as [_|?]; [|lia].
  destruct (Z.ltb_spec i (Z.of_nat (length l))) as [_|?]; [|lia]. simpl.
  destruct (lookup_lt_is_Some_2 l (Z.to_nat i)) as [x Hx]; [lia|].
  exists x. rewrite Hx. split; reflexivity.
Qed.

(** Only an int indexes a list. *)
Lemma py_getitem_int {A} (l : list A) (i : pynum) (x : A) :
  py_getitem l i = Ok x -> exists z, i = NInt z /\ json_of_num i = JInt z.
Proof. destruct i as [z|]; [eauto|discriminate]. Qed.

(** Two different ints cannot both equal the same stored value. *)
Lemma py_int_ne_distinct (i j : Z) (v : json) :
  i <> j -> py_int_ne i v = true \/ py_int_ne j v = true.
Proof.
  intros Hij. destruct v as [|b|z|f|s|l|m]; simpl; auto.
  - destruct (Z.eqb_spec i (if b then 1 else 0)), (Z.eqb_spec j (if b then 1 else 0));
      simpl; auto; lia.
  - destruct (Z.eqb_spec i z), (Z.eqb_spec j z); simpl; auto; lia.
  - destruct f as [|neg|m e]; simpl; auto.
    destruct (Z.leb_spec 0 e) as [He|He].
    + destruct (Z.eqb_spec i (m * 2 ^ e)), (Z.eqb_spec j (m * 2 ^ e));
        simpl; auto; lia.
    + destruct (Z.eqb_spec m (i * 2 ^ (- e))), (Z.eqb_spec m (j * 2 ^ (- e)));
        simpl; auto.
      exfalso. apply Hij.
      assert (0 < 2 ^ (- e)) by (apply Z.pow_pos_nonneg; lia).
      nia.
Qed.

Lemma elem_of_available_indices (n : nat) (current_index : json) (i : Z) :
  i ∈ available_indices n current_index <->
  0 <= i < Z.of_nat n /\ py_int_ne i current_index = true.
Proof.
  unfold available_indices.
  rewrite list_elem_of_In, filter_In, <- list_elem_of_In, list_elem_of_fmap.
  split.
  - intros [(k & -> & Hk) Hne]. apply elem_of_seq in Hk. split; [lia|exact Hne].
  - intros [Hi Hne]. split; [|exact Hne].
    exists (Z.to_nat i). split; [lia|]. apply elem_of_seq. lia.
Qed.

(** With two images or more, excluding one value leaves a candidate. *)
Lemma available_indices_nonempty (n : nat) (current_index : json) :
  (1 < n)%nat -> available_indices n current_index <> [].
Proof.
  intros Hn Hnil.
  destruct (py_int_ne_distinct 0 1 current_index) as [H|H]; [lia| |].
  - assert (Hin : 0 ∈ available_indices n current_index)
      by (apply elem_of_available_indices; split; [lia|exact H]).
    rewrite Hnil in Hin. inversion Hin.
  - assert (Hin : 1 ∈ available_indices n current_index)
      by (apply elem_of_available_indices; split; [lia|exact H]).
    rewrite Hnil in Hin. inversion Hin.
Qed.

Lemma random_choice_elem (rnd : nat) (l : list Z) :
  l <> [] -> exists i, random_choice rnd l = Ok i /\ i ∈ l.
Proof.
  intros Hl. unfold random_choice.
  assert (Hlen : (length l <> 0)%nat) by (destruct l; [congruence|simpl; lia]).
  destruct (lookup_lt_is_Some_2 l (rnd `mod` length l)%nat) as [i Hi].
  { apply Nat.mod_upper_bound. exact Hlen. }
  exists i. rewrite Hi. split; [reflexivity|].
  apply list_elem_of_lookup. eauto.
Qed.

(** Sequential order from a stored int. *)
Lemma select_index_sequential (rnd : nat) (order : string) (n : nat) (c : Z) :
  String.eqb order "random" = false ->
  select_index rnd order n (JInt c) = Ok (NInt ((c + 1) mod Z.of_nat n)).
Proof. intros H. unfold select_index. rewrite H. reflexivity. Qed.

(** Random order: an index of the listing that differs from the stored
    value, whatever that value is. *)
Lemma select_index_random (rnd : nat) (n : nat) (current_index : json) :
  (1 < n)%nat ->
  exists i, select_index rnd "random" n current_index = Ok (NInt i) /\
            0 <= i < Z.of_nat n /\ py_int_ne i current_index = true.
Proof.
  intros Hn. unfold select_index. simpl.
  destruct (Nat.ltb_spec 1 n) as [_|?]; [|lia].
  destruct (random_choice_elem rnd (available_indices n current_index)) as (i & Hi & Hin).
  { apply available_indices_nonempty. exact Hn. }
  exists i. rewrite Hi. split; [reflexivity|].
  apply elem_of_available_indices. exact Hin.
Qed.

(** From a stored int, whatever its value, either order yields an index of
    the listing. *)
Lemma select_index_int_bounds (rnd : nat) (order : string) (n : nat) (c : Z) :
  (0 < n)%nat ->
  exists i, select_index rnd order n (JInt c) = Ok (NInt i) /\ 0 <= i < Z.of_nat n.
Proof.
  intros Hn. destruct (String.eqb order "random") eqn:Ho.
  - apply String.eqb_eq in Ho. subst order.
    destruct (Nat.ltb_spec 1 n) as [H1|H1].
    + destruct (select_index_random rnd n (JInt c) H1) as (i & Hi & Hb & _). eauto.
    + exists 0. unfold select_index. simpl.
      destruct (Nat.ltb_spec 1 n) as [?|_]; [lia|]. split; [reflexivity|lia].
  - exists ((c + 1) mod Z.of_nat n). split.
    + apply select_index_sequential. exact Ho.
    + apply Z.mod_pos_bound. lia.
Qed.

Section RotatorProperties.

Variable path_le : string -> string -> bool.

(** One rotation over a dict state and a non-empty listing, step by step. *)
Lemma get_next_wallpaper_run (rnd : nat) (order : string) (w : world)
    (m : gmap string json) :
  image_listing path_le w <> [] ->
  loaded (state_file w) = Ok (JObject m) ->
  let l := image_listing path_le w in
  let n := length l in
  let drift := py_int_ne (Z.of_nat n) (recorded_count m) in
  let w1 := if drift then add_event (Printed (MsgFolderChanged n)) w else w in
  get_next_wallpaper path_le rnd order w =
    match select_index rnd order n (if drift then JInt (-1) else recorded_index m) with
    | Raise e => (Raise e, w1)
    | Ok i =>
        match py_getitem l i with
        | Raise e => (Raise e, w1)
        | Ok p =>
            if state_writable w
            then (Ok (Some p),
                  set_state_file (Holds (JObject (rotated_state m i p n order))) w1)
            else (Ok (Some p), add_event (Printed (MsgSaveWarning PermissionError)) w1)
        end
    end.
Proof.
  intros Hne Hload l n drift w1.
  unfold get_next_wallpaper, get_image_files, mbind, M_bind, bind.
  fold l. rewrite bool_decide_eq_false_2 by exact Hne.
  rewrite load_state_run, Hload. unfold lift, dict_get; simpl.
  unfold drift_check. fold n. fold (recorded_count m). fold drift.
  subst w1.
  destruct drift; simpl;
    (destruct (select_index rnd order n _) as [i|e]; [|reflexivity]);
    (destruct (py_getitem l i) as [p|e]; [|reflexivity]);
    simpl; rewrite save_state_run; simpl;
    destruct (state_writable w); reflexivity.
Qed.

Lemma recorded_index_rotated m i p n order :
  recorded_index (rotated_state m i p n order) = json_of_num i.
Proof. unfold recorded_index, rotated_state. by simplify_map_eq. Qed.

Lemma recorded_count_rotated m i p n order :
  recorded_count (rotated_state m i p n order) = JInt (Z.of_nat n).
Proof. unfold recorded_count, rotated_state. by simplify_map_eq. Qed.

Lemma py_int_ne_refl (n : Z) : py_int_ne n (JInt n) = false.
Proof. simpl. by rewrite Z.eqb_refl. Qed.

Lemma listing_length_pos (w : world) :
  image_listing path_le w <> [] -> (0 < length (image_listing path_le w))%nat.
Proof. destruct (image_listing path_le w); [congruence|simpl; lia]. Qed.

(** ** C5: an empty listing *)

Lemma empty_listing_is_silent (rnd : nat) (order : string) (w : world) :
  image_listing path_le w = [] ->
  (get_next_wallpaper path_le rnd order w).1 = Ok None /\
  state_file (get_next_wallpaper path_le rnd order w).2 = state_file w.
Proof.
  intros Hnil.
  unfold get_next_wallpaper, get_image_files, mbind, M_bind, bind.
  rewrite Hnil. simpl. auto.
Qed.

(** C5.  Whatever the persisted state, when the live listing is empty
    [get_next_wallpaper] returns [None] and leaves the state file exactly as
    it was: the only effect is the message on the console. *)
Theorem empty_listing_returns_nothing (rnd : nat) (order : string) (w : world) :
  image_listing path_le w = [] ->
  (get_next_wallpaper path_le rnd order w).1 = Ok None /\
  state_file (get_next_wallpaper path_le rnd order w).2 = state_file w /\
  (get_next_wallpaper path_le rnd order w).2 = add_event (Printed MsgNoImages) w.
Proof.
  intros Hnil.
  unfold get_next_wallpaper, get_image_files, mbind, M_bind, bind.
  rewrite Hnil. simpl. auto.
Qed.

(** ** C2: drift *)

(** C2.  For every persisted state (a dict [m]) and every non-empty live
    listing whose length differs from the recorded [image_count], the
    rotation selects as if the recorded [current_index] were -1, for every
    order; under sequential order it returns the image at index 0. *)
Theorem drift_ignores_recorded_index (rnd : nat) (order : string) (w : world)
    (m : gmap string json) :
  image_listing path_le w <> [] ->
  (load_state w).1 = Ok (JObject m) ->
  py_int_ne (Z.of_nat (length (image_listing path_le w))) (recorded_count m) = true ->
  (get_next_wallpaper path_le rnd order w).1 =
    (i ← select_index rnd order (length (image_listing path_le w)) (JInt (-1));
     p ← py_getitem (image_listing path_le w) i;
     Ok (Some p)) /\
  (get_next_wallpaper path_le rnd "sequential" w).1 =
    Ok (image_listing path_le w !! 0%nat) /\
  is_Some (image_listing path_le w !! 0%nat).
Proof.
  intros Hne Hload Hdrift. rewrite load_state_run in Hload. simpl in Hload.
  pose proof (listing_length_pos w Hne) as Hpos.
  split; [|split].
  - rewrite (get_next_wallpaper_run rnd order w m Hne Hload). simpl.
    rewrite Hdrift.
    destruct (select_index rnd order _ (JInt (-1))) as [i|e]; simpl; [|reflexivity].
    destruct (py_getitem _ i) as [p|e]; simpl; [|reflexivity].
    destruct (state_writable w); reflexivity.
  - rewrite (get_next_wallpaper_run rnd "sequential" w m Hne Hload). simpl.
    rewrite Hdrift.
    rewrite select_index_sequential by reflexivity.
    replace ((-1 + 1) mod Z.of_nat (length (image_listing path_le w))) with 0
      by (rewrite Z.mod_0_l; lia).
    destruct (py_getitem_in_range (image_listing path_le w) 0) as (p & Hp & Hget);
      [lia|].
    rewrite Hget. change (Z.to_nat 0) with 0%nat in Hp. rewrite Hp.
    destruct (state_writable w); reflexivity.
  - apply lookup_lt_is_Some_2. exact Hpos.
Qed.

(** ** C10: the computed index is in range *)

(** C10.  For every non-empty listing and every persisted state whose
    [current_index] is an int [c], of any value, the index the rotation
    computes lies in [0, len(listing)), indexing the listing with it succeeds,
    the call returns that image, and with more than one image the candidate
    list of the random branch is not empty. *)
Theorem next_index_in_bounds (rnd : nat) (order : string) (w : world)
    (m : gmap string json) (c : Z) :
  image_listing path_le w <> [] ->
  (load_state w).1 = Ok (JObject m) ->
  recorded_index m = JInt c ->
  let l := image_listing path_le w in
  let n := length l in
  let start := if py_int_ne (Z.of_nat n) (recorded_count m) then JInt (-1) else JInt c in
  (exists i p,
      select_index rnd order n start = Ok (NInt i) /\
      0 <= i < Z.of_nat n /\
      py_getitem l (NInt i) = Ok p /\
      l !! Z.to_nat i = Some p /\
      (get_next_wallpaper path_le rnd order w).1 = Ok (Some p)) /\
  ((1 < n)%nat -> available_indices n start <> []).
Proof.
  intros Hne Hload Hc l n start. rewrite load_state_run in Hload. simpl in Hload.
  pose proof (listing_length_pos w Hne) as Hpos. fold l n in Hpos.
  split; [|apply available_indices_nonempty].
  assert (Hstart : exists c', start = JInt c')
    by (unfold start; destruct (py_int_ne _ _); eauto).
  destruct Hstart as [c' Hstart].
  destruct (select_index_int_bounds rnd order n c' Hpos) as (i & Hi & Hb).
  destruct (py_getitem_in_range l i Hb) as (p & Hp & Hget).
  exists i, p. rewrite Hstart. repeat split; try assumption; try lia.
  rewrite (get_next_wallpaper_run rnd order w m Hne Hload). simpl.
  rewrite Hc. fold l n. fold start. rewrite Hstart, Hi, Hget.
  destruct (state_writable w); reflexivity.
Qed.

(** ** C3: random order *)

(** C3 (amended).  Under random order, when the live listing has more than
    one image and its length equals the recorded [image_count], the chosen
    index is an index of the listing that differs from the recorded
    [current_index]; the call returns the image at it and records it.  With
    exactly one image the chosen index is 0. *)
Theorem random_no_immediate_repeat (rnd : nat) (w : world) (m : gmap string json) :
  image_listing path_le w <> [] ->
  (load_state w).1 = Ok (JObject m) ->
  let l := image_listing path_le w in
  let n := length l in
  ((1 < n)%nat ->
   py_int_ne (Z.of_nat n) (recorded_count m) = false ->
   exists i p,
     select_index rnd "random" n (recorded_index m) = Ok (NInt i) /\
     0 <= i < Z.of_nat n /\
     py_int_ne i (recorded_index m) = true /\
     (forall c, recorded_index m = JInt c -> i <> c) /\
     l !! Z.to_nat i = Some p /\
     (get_next_wallpaper path_le rnd "random" w).1 = Ok (Some p) /\
     (state_writable w = true ->
      (load_state (get_next_wallpaper path_le rnd "random" w).2).1 =
        Ok (JObject (rotated_state m (NInt i) p n "random")))) /\
  (n = 1%nat ->
   (get_next_wallpaper path_le rnd "random" w).1 = Ok (l !! 0%nat) /\
   is_Some (l !! 0%nat)).
Proof.
  intros Hne Hload l n. rewrite load_state_run in Hload. simpl in Hload.
  pose proof (get_next_wallpaper_run rnd "random" w m Hne Hload) as Hrun.
  simpl in Hrun. fold l n in Hrun.
  split.
  - intros Hn Hnodrift. rewrite Hnodrift in Hrun.
    destruct (select_index_random rnd n (recorded_index m) Hn) as (i & Hi & Hb & Hneq).
    destruct (py_getitem_in_range l i Hb) as (p & Hp & Hget).
    exists i, p. rewrite Hi, Hget in Hrun.
    repeat split; try assumption; try lia.
    + intros c Hc ->. rewrite Hc, py_int_ne_refl in Hneq. discriminate.
    + rewrite Hrun. destruct (state_writable w); reflexivity.
    + intros Hw. rewrite Hrun, Hw. rewrite load_state_run. reflexivity.
  - intros Hn1.
    assert (Hsel : forall v, select_index rnd "random" n v = Ok (NInt 0)).
    { intros v. unfold select_index. rewrite Hn1. reflexivity. }
    destruct (py_getitem_in_range l 0) as (p & Hp & Hget); [fold n; lia|].
    change (Z.to_nat 0) with 0%nat in Hp.
    rewrite Hsel, Hget in Hrun. rewrite Hrun, Hp.
    split; [destruct (py_int_ne _ _), (state_writable w); reflexivity|eauto].
Qed.

(** ** C1: sequential rotation *)

Lemma image_listing_folder (w w' : world) :
  folder w' = folder w -> image_listing path_le w' = image_listing path_le w.
Proof. intros H. unfold image_listing. rewrite H. reflexivity. Qed.

(** One sequential rotation whose write succeeds, from the int [c] that is
    left after the drift check. *)
Lemma sequential_step (rnd : nat) (w : world) (m : gmap string json) (c : Z) :
  image_listing path_le w <> [] ->
  loaded (state_file w) = Ok (JObject m) ->
  state_writable w = true ->
  let l := image_listing path_le w in
  let n := length l in
  (if py_int_ne (Z.of_nat n) (recorded_count m) then JInt (-1) else recorded_index m)
    = JInt c ->
  let i := (c + 1) mod Z.of_nat n in
  exists p w',
    get_next_wallpaper path_le rnd "sequential" w = (Ok (Some p), w') /\
    l !! Z.to_nat i = Some p /\
    folder w' = folder w /\
    state_writable w' = true /\
    state_file w' = Holds (JObject (rotated_state m (NInt i) p n "sequential")).
Proof.
  intros Hne Hload Hw l n Hstart i.
  pose proof (listing_length_pos w Hne) as Hpos. fold l n in Hpos.
  assert (Hb : 0 <= i < Z.of_nat n) by (apply Z.mod_pos_bound; lia).
  destruct (py_getitem_in_range l i Hb) as (p & Hp & Hget).
  rewrite (get_next_wallpaper_run rnd "sequential" w m Hne Hload). simpl.
  fold l n. rewrite Hstart, select_index_sequential by reflexivity.
  fold i. rewrite Hget, Hw.
  eexists p, _. split; [reflexivity|]. split; [exact Hp|].
  destruct (py_int_ne (Z.of_nat n) (recorded_count m)); simpl; auto.
Qed.

(** What [k] sequential rotations from an absent state file leave behind. *)
Lemma rotations_sequential_state (rnd : nat -> nat) (w : world) (k : nat) :
  state_file w = Missing ->
  state_writable w = true ->
  image_listing path_le w <> [] ->
  let n := length (image_listing path_le w) in
  let wk := rotations path_le rnd "sequential" k w in
  folder wk = folder w /\
  state_writable wk = true /\
  exists m c,
    loaded (state_file wk) = Ok (JObject m) /\
    (if py_int_ne (Z.of_nat n) (recorded_count m) then JInt (-1) else recorded_index m)
      = JInt c /\
    (c + 1) mod Z.of_nat n = Z.of_nat (k mod n).
Proof.
  intros Hfile Hw Hne n.
  pose proof (listing_length_pos w Hne) as Hpos. fold n in Hpos.
  induction k as [|k IH]; simpl.
  - split; [reflexivity|]. split; [exact Hw|].
    exists default_state, (-1). rewrite Hfile. simpl.
    split; [reflexivity|].
    assert (Hdrift : py_int_ne (Z.of_nat n) (recorded_count default_state) = true).
    { unfold recorded_count, default_state. simplify_map_eq. simpl.
      destruct (Z.eqb_spec (Z.of_nat n) 0); [lia|reflexivity]. }
    rewrite Hdrift. split; [reflexivity|].
    rewrite Nat.Div0.mod_0_l. rewrite Z.mod_0_l by lia. reflexivity.
  - destruct IH as (Hfold & Hwk & m & c & Hload & Hstart & Hc).
    set (wk := rotations path_le rnd "sequential" k w) in *.
    assert (Hl : image_listing path_le wk = image_listing path_le w)
      by (apply image_listing_folder; exact Hfold).
    assert (Hnek : image_listing path_le wk <> []) by (rewrite Hl; exact Hne).
    destruct (sequential_step (rnd k) wk m c Hnek Hload Hwk) as
      (p & w' & Hrun & _ & Hfold' & Hw' & Hfile').
    { rewrite Hl. exact Hstart. }
    rewrite Hrun. simpl.
    split; [congruence|]. split; [exact Hw'|].
    rewrite Hfile', Hl. fold n. simpl.
    eexists _, ((c + 1) mod Z.of_nat n). split; [reflexivity|].
    rewrite recorded_count_rotated, py_int_ne_refl, recorded_index_rotated. simpl.
    split; [reflexivity|].
    rewrite Hc, !Nat2Z.inj_mod, Z.add_mod_idemp_l by lia.
    f_equal. lia.
Qed.

(** C1 (amended).  For every folder whose listing has [N >= 1] images, with
    no state file and with every state write succeeding, the [(k+1)]-th
    sequential rotation returns the listing entry at index [k mod N]: image
    0, then image 1, and so on, the [(N+1)]-th wrapping back to image 0. *)
Theorem sequential_rotation_cycles (rnd : nat -> nat) (w : world) (k : nat) :
  state_file w = Missing ->
  state_writable w = true ->
  image_listing path_le w <> [] ->
  let l := image_listing path_le w in
  (get_next_wallpaper path_le (rnd k) "sequential"
     (rotations path_le rnd "sequential" k w)).1 = Ok (l !! (k mod length l)%nat) /\
  is_Some (l !! (k mod length l)%nat).
Proof.
  intros Hfile Hw Hne l.
  pose proof (listing_length_pos w Hne) as Hpos. fold l in Hpos.
  destruct (rotations_sequential_state rnd w k Hfile Hw Hne)
    as (Hfold & Hwk & m & c & Hload & Hstart & Hc).
  set (wk := rotations path_le rnd "sequential" k w) in *.
  assert (Hl : image_listing path_le wk = l)
    by (apply image_listing_folder; exact Hfold).
  assert (Hnek : image_listing path_le wk <> []) by (rewrite Hl; exact Hne).
  destruct (sequential_step (rnd k) wk m c Hnek Hload Hwk) as
    (p & w' & Hrun & Hp & _).
  { rewrite Hl. exact Hstart. }
  rewrite Hl in Hp. fold l in Hc. rewrite Hc, Nat2Z.id in Hp.
  rewrite Hrun, Hp. simpl. eauto.
Qed.

(** ** C8: reset, then a sequential rotation *)

(** C8 (amended).  For every persisted state (a dict), when the write of
    [reset_rotation] succeeds and the live listing is not empty, a sequential
    rotation after the reset returns image 0 of the listing; the reset leaves
    the recorded [current_index] at -1. *)
Theorem reset_then_sequential_first (rnd : nat) (w : world) (m : gmap string json) :
  (load_state w).1 = Ok (JObject m) ->
  state_writable w = true ->
  image_listing path_le w <> [] ->
  (reset_rotation w).1 = Ok tt /\
  (load_state (reset_rotation w).2).1 =
    Ok (JObject (<["current_index" := JInt (-1)]> m)) /\
  (get_next_wallpaper path_le rnd "sequential" (reset_rotation w).2).1 =
    Ok (image_listing path_le w !! 0%nat) /\
  is_Some (image_listing path_le w !! 0%nat).
Proof.
  intros Hload Hw Hne. rewrite load_state_run in Hload. simpl in Hload.
  pose proof (listing_length_pos w Hne) as Hpos.
  rewrite (reset_rotation_run w m Hload), Hw. cbn [fst snd].
  set (m' := <["current_index" := JInt (-1)]> m).
  set (w' := add_event _ _).
  split; [reflexivity|]. split; [rewrite load_state_run; reflexivity|].
  assert (Hl : image_listing path_le w' = image_listing path_le w)
    by (apply image_listing_folder; reflexivity).
  assert (Hne' : image_listing path_le w' <> []) by (rewrite Hl; exact Hne).
  assert (Hstart :
    (if py_int_ne (Z.of_nat (length (image_listing path_le w'))) (recorded_count m')
     then JInt (-1) else recorded_index m') = JInt (-1)).
  { replace (recorded_index m') with (JInt (-1))
      by (unfold recorded_index, m'; by simplify_map_eq).
    destruct (py_int_ne _ _); reflexivity. }
  destruct (sequential_step rnd w' m' (-1) Hne' eq_refl Hw Hstart)
    as (p & w'' & Hrun & Hp & _).
  rewrite Hrun. simpl.
  change (-1 + 1) with 0 in Hp.
  rewrite Hl, Z.mod_0_l in Hp by lia. change (Z.to_nat 0) with 0%nat in Hp.
  rewrite Hp. eauto.
Qed.

(** ** C9: the index invariant *)

Lemma index_invariant_default : index_invariant default_state = true.
Proof. reflexivity. Qed.

Lemma index_invariant_rotated m i p n order :
  0 <= i < Z.of_nat n ->
  index_invariant (rotated_state m (NInt i) p n order) = true.
Proof.
  intros Hi. unfold index_invariant.
  rewrite recorded_index_rotated, recorded_count_rotated. simpl.
  destruct (Z.ltb_spec i (Z.of_nat n)); [|lia]. apply orb_true_r.
Qed.

(** C9.  The invariant "the persisted [current_index] is -1 or below the
    persisted [image_count]" is kept by [get_next_wallpaper], [set_order] and
    [reset_rotation]; and when the live listing's length differs from the
    persisted [image_count], the rotation replaces the index by -1 before it
    selects, so that the state it writes is the one selected from -1. *)
Theorem index_invariant_preserved (rnd : nat) (order new_order : string) (w : world) :
  persisted_invariant w = true ->
  persisted_invariant (get_next_wallpaper path_le rnd order w).2 = true /\
  persisted_invariant (set_order new_order w).2 = true /\
  persisted_invariant (reset_rotation w).2 = true /\
  (forall m,
     (load_state w).1 = Ok (JObject m) ->
     image_listing path_le w <> [] ->
     let n := length (image_listing path_le w) in
     py_int_ne (Z.of_nat n) (recorded_count m) = true ->
     (drift_check n (recorded_index m) (recorded_count m) w).1 = Ok (JInt (-1)) /\
     exists i p,
       select_index rnd order n (JInt (-1)) = Ok (NInt i) /\
       image_listing path_le w !! Z.to_nat i = Some p /\
       (state_writable w = true ->
        (load_state (get_next_wallpaper path_le rnd order w).2).1 =
          Ok (JObject (rotated_state m (NInt i) p n order)))).
Proof.
  intros Hinv. unfold persisted_invariant in *.
  rewrite load_state_run in Hinv. cbn [fst] in Hinv.
  destruct (loaded (state_file w)) as [[| | | | | |m]|] eqn:Hload; try discriminate.
  assert (Hc : exists c, recorded_index m = JInt c).
  { unfold index_invariant in Hinv. destruct (recorded_index m); try discriminate. eauto. }
  destruct Hc as [c Hc].
  split; [|split; [|split]].
  - destruct (decide (image_listing path_le w = [])) as [Hnil|Hne].
    + destruct (empty_listing_is_silent rnd order w Hnil) as (_ & Hfile).
      rewrite load_state_run. simpl. rewrite Hfile, Hload. exact Hinv.
    + pose proof (listing_length_pos w Hne) as Hpos.
      rewrite (get_next_wallpaper_run rnd order w m Hne Hload). simpl.
      set (n := length (image_listing path_le w)) in *.
      set (start := if py_int_ne _ _ then _ else _).
      assert (Hstart : exists c', start = JInt c')
        by (unfold start; rewrite Hc; destruct (py_int_ne _ _); eauto).
      destruct Hstart as [c' Hstart]. rewrite Hstart.
      destruct (select_index_int_bounds rnd order n c' Hpos) as (i & Hi & Hb).
      destruct (py_getitem_in_range (image_listing path_le w) i Hb) as (p & Hp & Hget).
      rewrite Hi, Hget. rewrite load_state_run.
      destruct (state_writable w); simpl.
      * apply index_invariant_rotated. exact Hb.
      * destruct (py_int_ne _ _); simpl; rewrite Hload; exact Hinv.
  - destruct (decide (new_order = "sequential" \/ new_order = "random")) as [Hv|Hv].
    + rewrite (set_order_run new_order w m Hv Hload). rewrite load_state_run.
      destruct (state_writable w); simpl.
      * unfold index_invariant, recorded_index, recorded_count in *.
        by simplify_map_eq.
      * rewrite Hload. exact Hinv.
    + rewrite set_order_invalid by tauto. rewrite load_state_run. simpl.
      rewrite Hload. exact Hinv.
  - rewrite (reset_rotation_run w m Hload). rewrite load_state_run.
    destruct (state_writable w); simpl.
    + unfold index_invariant, recorded_index. by simplify_map_eq.
    + rewrite Hload. exact Hinv.
  - intros m' Hm' Hne Hdrift. rewrite load_state_run in Hm'. cbn [fst] in Hm'.
    assert (m' = m) as -> by congruence.
    pose proof (listing_length_pos w Hne) as Hpos.
    set (n := length (image_listing path_le w)) in *.
    split; [unfold drift_check; rewrite Hdrift; reflexivity|].
    destruct (select_index_int_bounds rnd order n (-1) Hpos) as (i & Hi & Hb).
    destruct (py_getitem_in_range (image_listing path_le w) i Hb) as (p & Hp & Hget).
    exists i, p. split; [exact Hi|]. split; [exact Hp|].
    intros Hw.
    rewrite (get_next_wallpaper_run rnd order w m Hne Hload). simpl.
    fold n. rewrite Hdrift, Hi, Hget, Hw. rewrite load_state_run. reflexivity.
Qed.

End RotatorProperties.

(** ** C7: changing the order *)

(** C7.  An order outside {sequential, random} makes [set_order] raise
    [ValueError] at once, with the world (the state file in particular)
    untouched; an order inside the set, over a dict state [m], makes it
    return normally and hand [save_state] the dict [m] with only the key
    [order] overwritten: the state file then holds it, or, the write
    failing, stays as it was. *)
Theorem set_order_validates (order : string) (w : world) :
  (order <> "sequential" -> order <> "random" ->
   set_order order w = (Raise ValueError, w)) /\
  (order = "sequential" \/ order = "random" ->
   forall m, (load_state w).1 = Ok (JObject m) ->
     (set_order order w).1 = Ok tt /\
     (state_writable w = true ->
      state_file (set_order order w).2 =
        Holds (JObject (<["order" := JString order]> m))) /\
     (state_writable w = false ->
      state_file (set_order order w).2 = state_file w) /\
     (<["order" := JString order]> m) !! "order" = Some (JString order) /\
     (forall key, key <> "order" ->
        (<["order" := JString order]> m) !! key = m !! key)).
Proof.
  split.
  - apply set_order_invalid.
  - intros Hvalid m Hload. rewrite load_state_run in Hload. cbn [fst] in Hload.
    rewrite (set_order_run order w m Hvalid Hload).
    repeat split.
    + destruct (state_writable w); reflexivity.
    + intros ->. reflexivity.
    + intros ->. reflexivity.
    + apply lookup_insert_eq.
    + intros key Hkey. apply lookup_insert_ne. congruence.
Qed.

(** ** C4: loading the state *)

(** The failures [load_state] recovers from: no file, and a read that raises
    an [IOError] or a [JSONDecodeError]. *)
Lemma load_state_recovers (w : world) (e : exn) :
  state_file w = Missing \/
  (state_file w = Unreadable e /\
   (isinstance e IOError = true \/ isinstance e JSONDecodeError = true)) ->
  (load_state w).1 = Ok (JObject default_state).
Proof.
  rewrite load_state_run. cbn [fst].
  intros [->|[-> [H|H]]]; simpl; [reflexivity|..];
    rewrite H, ?orb_true_r; reflexivity.
Qed.

(** C4, at the failing input.  A state file whose bytes do not decode makes
    [json.load] raise [UnicodeDecodeError], which is neither a
    [JSONDecodeError] nor an [IOError]: [load_state] raises it instead of
    returning the default state. *)
Theorem load_state_undecodable_raises (w : world) :
  (load_state (set_state_file (Unreadable UnicodeDecodeError) w)).1 =
    Raise UnicodeDecodeError.
Proof. rewrite load_state_run. reflexivity. Qed.

(** ** C6: applying a wallpaper *)

Lemma isinstance_Exception (e : exn) : isinstance e Exception = true.
Proof. destruct e; reflexivity. Qed.

Lemma trace_add_event (ev : event) (w : world) :
  trace (add_event ev w) = (trace w ++ [ev])%list.
Proof. reflexivity. Qed.

(** Tier 1 alone: one run of the helper, a boolean, no exception. *)
Lemma set_wallpaper_all_desktops_powershell_run (p : string) (w : world) :
  _set_wallpaper_all_desktops_powershell p w =
    let w1 := add_event (RunPowerShell p) w in
    if helper_succeeds (powershell w p) then (Ok true, w1)
    else (Ok false, add_event (Printed (helper_failure_message (powershell w p))) w1).
Proof.
  unfold _set_wallpaper_all_desktops_powershell, try_except, run_powershell,
    mbind, M_bind, bind, helper_succeeds, helper_failure_message.
  destruct (powershell w p) as [e|rc out err]; simpl.
  - rewrite orb_false_r.
    destruct (isinstance e TimeoutExpired); simpl; [reflexivity|].
    rewrite isinstance_Exception. reflexivity.
  - destruct ((rc =? 0) && contains "SUCCESS" out); simpl; [reflexivity|].
    destruct (contains "MODULE_NOT_FOUND" out); simpl; [reflexivity|].
    destruct (contains "COMMAND_NOT_FOUND" out); reflexivity.
Qed.

(** [set_wallpaper], step by step. *)
Lemma set_wallpaper_run (image_path : string) (w : world) :
  set_wallpaper image_path w =
    match resolve w image_path with
    | Raise e => (Ok false, add_event (Printed (MsgErrorSetting e)) w)
    | Ok p =>
        let w1 := add_event (RunPowerShell p) w in
        if helper_succeeds (powershell w p) then (Ok true, w1)
        else
          let w2 := add_event (SystemParametersInfoW p)
                      (add_event (Printed MsgFallback)
                         (add_event (Printed (helper_failure_message (powershell w p))) w1)) in
          match native_call w p with
          | Ok z => (Ok (negb (z =? 0)), w2)
          | Raise e => (Ok false, add_event (Printed (MsgErrorSetting e)) w2)
          end
    end.
Proof.
  unfold set_wallpaper, try_except, mbind, M_bind, bind, resolve_path.
  destruct (resolve w image_path) as [p|e]; simpl.
  - rewrite set_wallpaper_all_desktops_powershell_run. simpl.
    destruct (helper_succeeds (powershell w p)); simpl; [reflexivity|].
    unfold call_native. simpl.
    destruct (native_call w p) as [z|e]; simpl; [reflexivity|].
    rewrite isinstance_Exception. reflexivity.
  - rewrite isinstance_Exception. reflexivity.
Qed.

Lemma new_events_app (w w' : world) (evs : list event) :
  trace w' = (trace w ++ evs)%list -> new_events w w' = evs.
Proof. intros H. unfold new_events. rewrite H. apply drop_app_length. Qed.

(** C6 (amended).  [set_wallpaper] never raises: it returns a boolean for
    every input path.  When the path resolves, the multi-desktop tier is
    attempted exactly once, the single-desktop tier exactly once when the
    first did not succeed and not at all when it did, and the result is
    [False] only when both tiers failed.  When resolving the path raises, no
    tier is attempted and the result is [False]. *)
Theorem set_wallpaper_fallback (image_path : string) (w : world) :
  let r := set_wallpaper image_path w in
  let evs := new_events w r.2 in
  (exists b, r.1 = Ok b) /\
  match resolve w image_path with
  | Ok p =>
      attempts is_tier1 evs = 1%nat /\
      attempts is_tier2 evs = (if helper_succeeds (powershell w p) then 0 else 1)%nat /\
      r.1 = Ok (helper_succeeds (powershell w p) || native_succeeds (native_call w p))
  | Raise _ =>
      r.1 = Ok false /\ attempts is_tier1 evs = 0%nat /\ attempts is_tier2 evs = 0%nat
  end.
Proof.
  intros r evs. subst evs r. rewrite set_wallpaper_run.
  destruct (resolve w image_path) as [p|e]; cbn zeta.
  - destruct (helper_succeeds (powershell w p)).
    + rewrite (new_events_app w _ [RunPowerShell p]) by reflexivity.
      split; [eauto|]. repeat split.
    + destruct (native_call w p) as [z|e]; cbn [fst snd].
      * erewrite new_events_app
          by (simpl; rewrite <- !app_assoc; reflexivity).
        split; [eauto|]. repeat split.
      * erewrite new_events_app
          by (simpl; rewrite <- !app_assoc; reflexivity).
        split; [eauto|]. repeat split.
  - rewrite (new_events_app w _ [Printed (MsgErrorSetting e)]) by reflexivity.
    split; [eauto|]. repeat split.
Qed.

(** * Witnesses and counterexamples

    The path order is instantiated with the code-point order on strings. *)

(** C1, as stated (no assumption on the state write), fails: with a state
    file that cannot be written nothing is recorded, and the second
    sequential rotation returns image 0 again instead of image 1. *)
Lemma sequential_rotation_needs_write :
  ~ (forall (rnd : nat -> nat) (w : world) (k : nat),
       state_file w = Missing ->
       image_listing String.leb w <> [] ->
       (get_next_wallpaper String.leb (rnd k) "sequential"
          (rotations String.leb rnd "sequential" k w)).1 =
         Ok (image_listing String.leb w
               !! (k mod length (image_listing String.leb w))%nat)).
Proof.
  intros H.
  specialize (H (fun _ => 0%nat) readonly_world 1%nat eq_refl).
  vm_compute in H. specialize (H ltac:(discriminate)). discriminate H.
Qed.

Lemma sequential_rotation_cycles_witness :
  state_file fresh_world = Missing /\
  state_writable fresh_world = true /\
  image_listing String.leb fresh_world <> [] /\
  (get_next_wallpaper String.leb 0 "sequential"
     (rotations String.leb (fun _ => 0%nat) "sequential" 3 fresh_world)).1 =
    Ok (image_listing String.leb fresh_world
          !! (3 mod length (image_listing String.leb fresh_world))%nat).
Proof.
  assert (Hne : image_listing String.leb fresh_world <> [])
    by (vm_compute; discriminate).
  split; [reflexivity|]. split; [reflexivity|]. split; [exact Hne|].
  apply (sequential_rotation_cycles String.leb (fun _ => 0%nat) fresh_world 3
           eq_refl eq_refl Hne).
Defined.

Lemma drift_ignores_recorded_index_witness :
  image_listing String.leb (recorded_world 2 5 true) <> [] /\
  py_int_ne 3 (recorded_count (dict_of 2 5)) = true /\
  (get_next_wallpaper String.leb 0 "sequential" (recorded_world 2 5 true)).1 =
    Ok (Some "a.png").
Proof.
  assert (Hne : image_listing String.leb (recorded_world 2 5 true) <> [])
    by (vm_compute; discriminate).
  assert (Hdrift : py_int_ne 3 (recorded_count (dict_of 2 5)) = true)
    by (vm_compute; reflexivity).
  split; [exact Hne|]. split; [exact Hdrift|].
  destruct (drift_ignores_recorded_index String.leb 0 "sequential"
              (recorded_world 2 5 true) (dict_of 2 5) Hne eq_refl Hdrift)
    as (_ & H & _).
  exact H.
Defined.

(** C3, as stated (for every persisted index, drift or not), fails: the state
    records index 0 of 2 images, the folder now has 3, so the recorded index
    is discarded and the draw is among all three indices; the draw 0 selects
    index 0 again. *)
Lemma random_repeats_after_drift :
  ~ (forall (rnd : nat) (w : world) (m : gmap string json) (c : Z),
       (1 < length (image_listing String.leb w))%nat ->
       (load_state w).1 = Ok (JObject m) ->
       recorded_index m = JInt c ->
       forall m',
         (load_state (get_next_wallpaper String.leb rnd "random" w).2).1 =
           Ok (JObject m') ->
         recorded_index m' <> JInt c).
Proof.
  intros H.
  apply (H 0%nat (recorded_world 0 2 true) (dict_of 0 2) 0
           ltac:(vm_compute; lia) eq_refl ltac:(vm_compute; reflexivity)
           (rotated_state (dict_of 0 2) (NInt 0) "a.png" 3 "random")).
  - vm_compute. reflexivity.
  - vm_compute. reflexivity.
Qed.

Lemma random_no_immediate_repeat_witness :
  image_listing String.leb (recorded_world 0 3 true) <> [] /\
  exists i, select_index 7 "random" 3 (JInt 0) = Ok (NInt i) /\ i <> 0.
Proof.
  assert (Hne : image_listing String.leb (recorded_world 0 3 true) <> [])
    by (vm_compute; discriminate).
  split; [exact Hne|].
  destruct (random_no_immediate_repeat String.leb 7 (recorded_world 0 3 true)
              (dict_of 0 3) Hne eq_refl) as [H _].
  destruct (H ltac:(vm_compute; lia) ltac:(vm_compute; reflexivity))
    as (i & p & Hsel & _ & _ & Hneq & _).
  exists i. split; [exact Hsel|]. apply Hneq. vm_compute. reflexivity.
Defined.

Lemma empty_listing_returns_nothing_witness :
  image_listing String.leb empty_world = [] /\
  (get_next_wallpaper String.leb 0 "sequential" empty_world).1 = Ok None /\
  state_file (get_next_wallpaper String.leb 0 "sequential" empty_world).2 =
    Holds (JObject (dict_of 1 3)).
Proof.
  assert (Hnil : image_listing String.leb empty_world = []) by reflexivity.
  split; [exact Hnil|].
  destruct (empty_listing_returns_nothing String.leb 0 "sequential" empty_world Hnil)
    as (H1 & H2 & _).
  split; [exact H1|exact H2].
Defined.

Lemma set_order_validates_witness :
  set_order "shuffle" (recorded_world 1 3 true) =
    (Raise ValueError, recorded_world 1 3 true) /\
  state_file (set_order "random" (recorded_world 1 3 true)).2 =
    Holds (JObject (<["order" := JString "random"]> (dict_of 1 3))).
Proof.
  split.
  - apply (proj1 (set_order_validates "shuffle" (recorded_world 1 3 true)));
      discriminate.
  - destruct (proj2 (set_order_validates "random" (recorded_world 1 3 true))
                (or_intror eq_refl) (dict_of 1 3) eq_refl) as (_ & H & _).
    apply H. reflexivity.
Defined.

(** C8, as stated (for every persisted state, always), fails: when the state
    file cannot be written the reset is not recorded, and the sequential
    rotation that follows continues from the old index: from index 0 it
    returns image 1. *)
Lemma reset_needs_write :
  ~ (forall (rnd : nat) (w : world) (m : gmap string json),
       (load_state w).1 = Ok (JObject m) ->
       image_listing String.leb w <> [] ->
       (get_next_wallpaper String.leb rnd "sequential" (reset_rotation w).2).1 =
         Ok (image_listing String.leb w !! 0%nat)).
Proof.
  intros H.
  specialize (H 0%nat (recorded_world 0 3 false) (dict_of 0 3) eq_refl
                ltac:(vm_compute; discriminate)).
  vm_compute in H. discriminate H.
Qed.

Lemma reset_then_sequential_first_witness :
  state_writable (recorded_world 1 3 true) = true /\
  image_listing String.leb (recorded_world 1 3 true) <> [] /\
  (get_next_wallpaper String.leb 0 "sequential"
     (reset_rotation (recorded_world 1 3 true)).2).1 = Ok (Some "a.png").
Proof.
  assert (Hne : image_listing String.leb (recorded_world 1 3 true) <> [])
    by (vm_compute; discriminate).
  split; [reflexivity|]. split; [exact Hne|].
  destruct (reset_then_sequential_first String.leb 0 (recorded_world 1 3 true)
              (dict_of 1 3) eq_refl eq_refl Hne) as (_ & _ & H & _).
  exact H.
Defined.

Lemma index_invariant_preserved_witness :
  persisted_invariant (recorded_world 2 3 true) = true /\
  persisted_invariant
    (get_next_wallpaper String.leb 4 "random" (recorded_world 2 3 true)).2 = true /\
  persisted_invariant (set_order "random" (recorded_world 2 3 true)).2 = true /\
  persisted_invariant (reset_rotation (recorded_world 2 3 true)).2 = true.
Proof.
  assert (Hinv : persisted_invariant (recorded_world 2 3 true) = true)
    by (vm_compute; reflexivity).
  split; [exact Hinv|].
  destruct (index_invariant_preserved String.leb 4 "random" "random"
              (recorded_world 2 3 true) Hinv) as (H1 & H2 & H3 & _).
  split; [exact H1|]. split; [exact H2|exact H3].
Defined.

Lemma next_index_in_bounds_witness :
  image_listing String.leb (recorded_world 1000 3 true) <> [] /\
  recorded_index (dict_of 1000 3) = JInt 1000 /\
  exists i p,
    select_index 0 "sequential" 3 (JInt 1000) = Ok (NInt i) /\
    0 <= i < 3 /\
    (get_next_wallpaper String.leb 0 "sequential" (recorded_world 1000 3 true)).1 =
      Ok (Some p).
Proof.
  assert (Hne : image_listing String.leb (recorded_world 1000 3 true) <> [])
    by (vm_compute; discriminate).
  assert (Hc : recorded_index (dict_of 1000 3) = JInt 1000)
    by (vm_compute; reflexivity).
  split; [exact Hne|]. split; [exact Hc|].
  destruct (next_index_in_bounds String.leb 0 "sequential"
              (recorded_world 1000 3 true) (dict_of 1000 3) 1000 Hne eq_refl Hc)
    as [(i & p & Hsel & Hb & _ & _ & Hrun) _].
  exists i, p. split; [exact Hsel|]. split; [exact Hb|exact Hrun].
Defined.

(** C6, as stated (for every input path the first tier is attempted exactly
    once), fails: when the path cannot be resolved the exception is caught
    before any tier runs. *)
Lemma unresolvable_path_attempts_no_tier :
  ~ (forall (image_path : string) (w : world),
       attempts is_tier1 (new_events w (set_wallpaper image_path w).2) = 1%nat).
Proof.
  intros H. specialize (H "a.png" unresolvable_world).
  vm_compute in H. discriminate H.
Qed.

(** ** The examples of the specification *)

(** A folder with [a.png], [b.JPG], [c.gif] and no state file: the first
    sequential rotation returns [a.png] and records index 0, count 3, the
    order and the image. *)
Example first_rotation_example :
  get_next_wallpaper String.leb 0 "sequential" fresh_world =
    (Ok (Some "a.png"),
     set_state_file
       (Holds (JObject (<["current_index" := JInt 0]>
                       (<["last_wallpaper" := JString "a.png"]>
                       (<["image_count" := JInt 3]>
                       (<["order" := JString "sequential"]> ∅))))))
       (add_event (Printed (MsgFolderChanged 3)) fresh_world)).
Proof. vm_compute. reflexivity. Qed.

(** The recorded state says index 1 of 2 images and the folder now has 3:
    the next sequential rotation returns image 0 of the new listing. *)
Example drift_example :
  (get_next_wallpaper String.leb 0 "sequential" (recorded_world 1 2 true)).1 =
    Ok (Some "a.png").
Proof. vm_compute. reflexivity. Qed.

(** Helper not installed, native call succeeds: both tiers run once. *)
Example fallback_example :
  (set_wallpaper "a.png" fresh_world).1 = Ok true /\
  trace (set_wallpaper "a.png" fresh_world).2 =
    [RunPowerShell "a.png"; Printed (MsgExecutionError FileNotFoundError);
     Printed MsgFallback; SystemParametersInfoW "a.png"].
Proof. split; reflexivity. Qed.

(** * Further properties of the code *)

(** ** The image listing *)

Lemma elem_of_image_listing (path_le : string -> string -> bool) (w : world) (p : string) :
  p ∈ image_listing path_le w <->
  exists d, d ∈ folder w /\ entry_path d = p /\ entry_is_file d = true /\
            lower (entry_suffix d) ∈ supported_formats.
Proof.
  unfold image_listing. rewrite (sorted_perm path_le _).
  rewrite list_elem_of_fmap. split.
  - intros (d & -> & Hd). apply list_elem_of_In, filter_In in Hd.
    destruct Hd as [Hin Himg]. unfold is_image in Himg.
    apply andb_true_iff in Himg. destruct Himg as [Hfile Hsuf].
    apply bool_decide_eq_true_1 in Hsuf.
    exists d. rewrite list_elem_of_In. auto.
  - intros (d & Hin & <- & Hfile & Hsuf). exists d. split; [reflexivity|].
    apply list_elem_of_In, filter_In. split; [by apply list_elem_of_In|].
    unfold is_image. rewrite Hfile. simpl. by apply bool_decide_eq_true_2.
Qed.

(** The listing holds exactly the paths of the folder entries that are files
    with a supported suffix, the case of the suffix not counting. *)
Theorem listing_members (path_le : string -> string -> bool) (w : world) (p : string) :
  p ∈ image_listing path_le w <->
  exists d, d ∈ folder w /\ entry_path d = p /\ entry_is_file d = true /\
            lower (entry_suffix d) ∈ supported_formats.
Proof. apply elem_of_image_listing. Qed.

Lemma insert_sorted_strongly_sorted (path_le : string -> string -> bool)
    (p : string) (l : list string) :
  (forall x y, path_le x y = true \/ path_le y x = true) ->
  (forall x y z, path_le x y = true -> path_le y z = true -> path_le x z = true) ->
  StronglySorted (fun x y => path_le x y = true) l ->
  StronglySorted (fun x y => path_le x y = true) (insert_sorted path_le p l).
Proof.
  intros Htotal Htrans Hl. induction Hl as [|q l Hl IH Hq]; simpl.
  - repeat constructor.
  - destruct (path_le p q) eqn:Hpq.
    + constructor; [by constructor|]. constructor; [exact Hpq|].
      eapply Forall_impl; [exact Hq|]. intros z Hz. by eapply Htrans.
    + constructor; [exact IH|].
      rewrite (insert_sorted_perm path_le p l). constructor; [|exact Hq].
      destruct (Htotal p q) as [H|H]; [congruence|exact H].
Qed.

Lemma sorted_strongly_sorted (path_le : string -> string -> bool) (l : list string) :
  (forall x y, path_le x y = true \/ path_le y x = true) ->
  (forall x y z, path_le x y = true -> path_le y z = true -> path_le x z = true) ->
  StronglySorted (fun x y => path_le x y = true) (sorted path_le l).
Proof.
  intros Htotal Htrans. unfold sorted.
  induction l as [|p l IH]; simpl.
  - constructor.
  - by apply insert_sorted_strongly_sorted.
Qed.

(** When the path order is total and transitive, the listing is sorted:
    every image comes before all the images after it. *)
Theorem listing_sorted (path_le : string -> string -> bool) (w : world) :
  (forall x y, path_le x y = true \/ path_le y x = true) ->
  (forall x y z, path_le x y = true -> path_le y z = true -> path_le x z = true) ->
  StronglySorted (fun x y => path_le x y = true) (image_listing path_le w).
Proof. intros Htotal Htrans. by apply sorted_strongly_sorted. Qed.

Lemma filter_image_perm (l l' : list dir_entry) :
  l ≡ₚ l' -> List.filter is_image l ≡ₚ List.filter is_image l'.
Proof.
  induction 1 as [|d l l' _ IH|d d' l|l1 l2 l3 _ IH1 _ IH2]; simpl.
  - reflexivity.
  - destruct (is_image d); [by constructor|exact IH].
  - destruct (is_image d), (is_image d'); try reflexivity. apply Permutation_swap.
  - by etrans.
Qed.

(** The listing does not depend on the order in which [iterdir] yields the
    entries, when the path order is a total order. *)
Theorem listing_order_independent (path_le : string -> string -> bool)
    (w w' : world) :
  (forall x y, path_le x y = true \/ path_le y x = true) ->
  (forall x y z, path_le x y = true -> path_le y z = true -> path_le x z = true) ->
  (forall x y, path_le x y = true -> path_le y x = true -> x = y) ->
  folder w ≡ₚ folder w' ->
  image_listing path_le w = image_listing path_le w'.
Proof.
  intros Htotal Htrans Hanti Hperm.
  apply (StronglySorted_unique_strong (fun x y => path_le x y = true)).
  - intros x y _ _ Hxy Hyx. by apply Hanti.
  - by apply sorted_strongly_sorted.
  - by apply sorted_strongly_sorted.
  - unfold image_listing. rewrite !(sorted_perm path_le _).
    apply fmap_Permutation, filter_image_perm, Hperm.
Qed.

(** The code-point order on strings is transitive. *)
Lemma string_leb_trans (x y z : string) :
  String.leb x y = true -> String.leb y z = true -> String.leb x z = true.
Proof.
  unfold String.leb. revert y z.
  induction x as [|a x IH]; intros [|b y] [|c z]; simpl; try done.
  unfold Ascii.compare.
  destruct (N.compare_spec (N_of_ascii a) (N_of_ascii b)) as [Hab|Hab|Hab];
    destruct (N.compare_spec (N_of_ascii b) (N_of_ascii c)) as [Hbc|Hbc|Hbc];
    destruct (N.compare_spec (N_of_ascii a) (N_of_ascii c)) as [Hac|Hac|Hac];
    try done; try lia.
  apply IH.
Qed.

(** ** Loading and saving the state *)



(** ** More on one rotation *)

Lemma random_choice_Ok_elem (rnd : nat) (l : list Z) (i : Z) :
  random_choice rnd l = Ok i -> i ∈ l.
Proof.
  unfold random_choice.
  destruct (l !! (rnd `mod` length l)%nat) as [j|] eqn:Hj; [|discriminate].
  intros [= <-]. apply list_elem_of_lookup. eauto.
Qed.

(** Whatever the stored value, an int index that is selected is an index of
    the listing. *)
Lemma select_index_range (rnd : nat) (order : string) (n : nat)
    (current_index : json) (i : Z) :
  (0 < n)%nat ->
  select_index rnd order n current_index = Ok (NInt i) ->
  0 <= i < Z.of_nat n.
Proof.
  intros Hn. unfold select_index.
  destruct (String.eqb order "random").
  - destruct (1 <? n)%nat.
    + destruct (random_choice rnd _) as [j|e] eqn:Hj; [|discriminate].
      intros [= <-]. apply random_choice_Ok_elem, elem_of_available_indices in Hj.
      tauto.
    + intros [= <-]. lia.
  - destruct (py_add_one current_index) as [[z|]|e]; simpl; try discriminate.
    intros [= <-]. apply Z.mod_pos_bound. lia.
Qed.

Lemma py_getitem_Ok_lookup {A} (l : list A) (i : Z) (x : A) :
  0 <= i -> py_getitem l (NInt i) = Ok x -> l !! Z.to_nat i = Some x.
Proof.
  intros Hi. unfold py_getitem.
  destruct (Z.ltb_spec i 0) as [?|_]; [lia|].
  destruct ((0 <=? i) && (i <? Z.of_nat (length l))); [|discriminate].
  destruct (l !! Z.to_nat i); [|discriminate]. congruence.
Qed.

(** A rotation over a state that is not a dict, or that cannot be loaded. *)
Lemma get_next_wallpaper_no_dict (path_le : string -> string -> bool)
    (rnd : nat) (order : string) (w : world) :
  image_listing path_le w <> [] ->
  (forall m, loaded (state_file w) <> Ok (JObject m)) ->
  get_next_wallpaper path_le rnd order w =
    (match loaded (state_file w) with
     | Raise e => Raise e
     | Ok _ => Raise AttributeError
     end, w).
Proof.
  intros Hne Hnd.
  unfold get_next_wallpaper, get_image_files, mbind, M_bind, bind.
  rewrite bool_decide_eq_false_2 by exact Hne.
  rewrite load_state_run.
  destruct (loaded (state_file w)) as [[| | | | | |m]|e]; try reflexivity.
  by destruct (Hnd m).
Qed.

(** What a rotation returns, for a dict state and a non-empty listing: the
    selected index, the image there, nothing else. *)
Lemma get_next_wallpaper_returns (path_le : string -> string -> bool)
    (rnd : nat) (order : string) (w : world) (m : gmap string json) (p : string) :
  image_listing path_le w <> [] ->
  loaded (state_file w) = Ok (JObject m) ->
  (get_next_wallpaper path_le rnd order w).1 = Ok (Some p) ->
  let n := length (image_listing path_le w) in
  let start := if py_int_ne (Z.of_nat n) (recorded_count m)
               then JInt (-1) else recorded_index m in
  exists i,
    select_index rnd order n start = Ok (NInt i) /\
    0 <= i < Z.of_nat n /\
    image_listing path_le w !! Z.to_nat i = Some p /\
    (get_next_wallpaper path_le rnd order w).2 =
      (let w1 := if py_int_ne (Z.of_nat n) (recorded_count m)
                 then add_event (Printed (MsgFolderChanged n)) w else w in
       if state_writable w
       then set_state_file (Holds (JObject (rotated_state m (NInt i) p n order))) w1
       else add_event (Printed (MsgSaveWarning PermissionError)) w1).
Proof.
  intros Hne Hload Hres n start.
  pose proof (listing_length_pos path_le w Hne) as Hpos.
  rewrite (get_next_wallpaper_run path_le rnd order w m Hne Hload) in *.
  cbn zeta in *. fold n in Hres |- *. fold start in Hres |- *.
  destruct (select_index rnd order n start) as [i|e] eqn:Hsel; [|discriminate].
  destruct (py_getitem (image_listing path_le w) i) as [q|e] eqn:Hget;
    [|discriminate].
  destruct (py_getitem_int _ _ _ Hget) as (z & -> & _).
  pose proof (select_index_range rnd order n start z Hpos Hsel) as Hb.
  assert (q = p) as -> by (destruct (state_writable w); simpl in Hres; congruence).
  exists z. split; [reflexivity|]. split; [exact Hb|].
  split; [apply py_getitem_Ok_lookup; [lia|exact Hget]|].
  destruct (state_writable w); reflexivity.
Qed.

(** Whatever the state file holds, an image that [get_next_wallpaper]
    returns is the path of an entry of the folder that is a file with a
    supported suffix. *)
Theorem returned_wallpaper_is_image (path_le : string -> string -> bool)
    (rnd : nat) (order : string) (w : world) (p : string) :
  (get_next_wallpaper path_le rnd order w).1 = Ok (Some p) ->
  exists d, d ∈ folder w /\ entry_path d = p /\ entry_is_file d = true /\
            lower (entry_suffix d) ∈ supported_formats.
Proof.
  intros Hres. apply (elem_of_image_listing path_le).
  destruct (decide (image_listing path_le w = [])) as [Hnil|Hne].
  - destruct (empty_listing_is_silent path_le rnd order w Hnil) as [H _].
    congruence.
  - destruct (loaded (state_file w)) as [v|e] eqn:Hload.
    + destruct v as [| | | | | |m];
        try (rewrite get_next_wallpaper_no_dict in Hres;
             [rewrite Hload in Hres; discriminate|exact Hne
             |rewrite Hload; discriminate]).
      destruct (get_next_wallpaper_returns path_le rnd order w m p Hne Hload Hres)
        as (i & _ & _ & Hp & _).
      apply list_elem_of_lookup. eauto.
    + rewrite get_next_wallpaper_no_dict in Hres; [|exact Hne|].
      * rewrite Hload in Hres. discriminate.
      * rewrite Hload. discriminate.
Qed.

(** When a rotation over a dict state returns an image and the write
    succeeds, the state file records the index of that image, the image, the
    length of the listing and the order argument as given, and keeps every
    other key of the dict. *)
Theorem rotation_records_choice (path_le : string -> string -> bool)
    (rnd : nat) (order : string) (w : world) (m : gmap string json) (p : string) :
  (load_state w).1 = Ok (JObject m) ->
  state_writable w = true ->
  (get_next_wallpaper path_le rnd order w).1 = Ok (Some p) ->
  exists i m',
    (load_state (get_next_wallpaper path_le rnd order w).2).1 = Ok (JObject m') /\
    0 <= i < Z.of_nat (length (image_listing path_le w)) /\
    image_listing path_le w !! Z.to_nat i = Some p /\
    m' !! "current_index" = Some (JInt i) /\
    m' !! "last_wallpaper" = Some (JString p) /\
    m' !! "image_count" = Some (JInt (Z.of_nat (length (image_listing path_le w)))) /\
    m' !! "order" = Some (JString order) /\
    (forall key, key ∉ ["current_index"; "last_wallpaper"; "image_count"; "order"] ->
       m' !! key = m !! key).
Proof.
  intros Hload Hw Hres. rewrite load_state_run in Hload. cbn [fst] in Hload.
  assert (Hne : image_listing path_le w <> []).
  { intros Hnil. destruct (empty_listing_is_silent path_le rnd order w Hnil) as [H _].
    congruence. }
  destruct (get_next_wallpaper_returns path_le rnd order w m p Hne Hload Hres)
    as (i & _ & Hb & Hp & Hworld).
  exists i, (rotated_state m (NInt i) p (length (image_listing path_le w)) order).
  rewrite Hworld, Hw, load_state_run. cbn zeta.
  split; [reflexivity|]. split; [exact Hb|]. split; [exact Hp|].
  unfold rotated_state. simpl json_of_num.
  repeat split; try by simplify_map_eq.
  intros key Hkey. rewrite !not_elem_of_cons in Hkey.
  destruct Hkey as (? & ? & ? & ? & _). by simplify_map_eq.
Qed.


(** A state file whose JSON content is not an object is not repaired: with
    images in the folder [get_next_wallpaper] raises [AttributeError],
    [set_order] with a valid order and [reset_rotation] raise [TypeError],
    and the world is left as it was. *)
Theorem non_dict_state_rejected (path_le : string -> string -> bool)
    (rnd : nat) (order : string) (w : world) (v : json) :
  state_file w = Holds v ->
  (forall m, v <> JObject m) ->
  (image_listing path_le w <> [] ->
   get_next_wallpaper path_le rnd order w = (Raise AttributeError, w)) /\
  (order = "sequential" \/ order = "random" ->
   set_order order w = (Raise TypeError, w)) /\
  reset_rotation w = (Raise TypeError, w).
Proof.
  intros Hfile Hnd.
  assert (Hload : loaded (state_file w) = Ok v) by (rewrite Hfile; reflexivity).
  split; [|split].
  - intros Hne. rewrite get_next_wallpaper_no_dict; [|exact Hne|].
    + rewrite Hload. reflexivity.
    + rewrite Hload. intros m [= ->]. by apply (Hnd m).
  - intros Hvalid. unfold set_order.
    rewrite bool_decide_eq_true_2
      by (rewrite !elem_of_cons; destruct Hvalid; subst; auto).
    unfold mbind, M_bind, bind. simpl.
    rewrite load_state_run, Hload.
    destruct v as [| | | | | |m]; try reflexivity. by destruct (Hnd m).
  - unfold reset_rotation, mbind, M_bind, bind.
    rewrite load_state_run, Hload.
    destruct v as [| | | | | |m]; try reflexivity. by destruct (Hnd m).
Qed.

(** Random order never fails on the stored index: over a dict state and a
    non-empty listing it returns an image of the listing whatever JSON value
    [current_index] holds. *)
Theorem random_accepts_any_index (path_le : string -> string -> bool)
    (rnd : nat) (w : world) (m : gmap string json) :
  image_listing path_le w <> [] ->
  (load_state w).1 = Ok (JObject m) ->
  exists p, (get_next_wallpaper path_le rnd "random" w).1 = Ok (Some p) /\
            p ∈ image_listing path_le w.
Proof.
  intros Hne Hload. rewrite load_state_run in Hload. cbn [fst] in Hload.
  pose proof (listing_length_pos path_le w Hne) as Hpos.
  rewrite (get_next_wallpaper_run path_le rnd "random" w m Hne Hload). cbn zeta.
  set (n := length (image_listing path_le w)) in *.
  set (start := if py_int_ne _ _ then _ else _).
  assert (Hsel : exists i, select_index rnd "random" n start = Ok (NInt i) /\
                           0 <= i < Z.of_nat n).
  { destruct (Nat.ltb_spec 1 n) as [H1|H1].
    - destruct (select_index_random rnd n start H1) as (i & Hi & Hb & _). eauto.
    - exists 0. unfold select_index. simpl.
      destruct (Nat.ltb_spec 1 n) as [?|_]; [lia|]. split; [reflexivity|lia]. }
  destruct Hsel as (i & -> & Hb).
  destruct (py_getitem_in_range (image_listing path_le w) i Hb) as (p & Hp & ->).
  exists p. split; [destruct (state_writable w); reflexivity|].
  apply list_elem_of_lookup. eauto.
Qed.

(** Sequential order needs a number: when the listing has the recorded
    length and the stored [current_index] is null, a string, a list, a dict
    or a float, the rotation raises [TypeError] and writes nothing. *)
Theorem sequential_rejects_non_integer_index (path_le : string -> string -> bool)
    (rnd : nat) (order : string) (w : world) (m : gmap string json) :
  image_listing path_le w <> [] ->
  (load_state w).1 = Ok (JObject m) ->
  String.eqb order "random" = false ->
  py_int_ne (Z.of_nat (length (image_listing path_le w))) (recorded_count m) = false ->
  (forall z, recorded_index m <> JInt z) ->
  (forall b, recorded_index m <> JBool b) ->
  get_next_wallpaper path_le rnd order w = (Raise TypeError, w).
Proof.
  intros Hne Hload Hord Hnodrift Hint Hbool.
  rewrite load_state_run in Hload. cbn [fst] in Hload.
  rewrite (get_next_wallpaper_run path_le rnd order w m Hne Hload). cbn zeta.
  rewrite Hnodrift. unfold select_index. rewrite Hord.
  destruct (recorded_index m) as [|b|z|f|s|l|m']; try reflexivity.
  - by destruct (Hbool b).
  - by destruct (Hint z).
Qed.

(** [get_next_wallpaper] does not validate its order: every order other
    than "random" selects as "sequential" does. *)
Theorem unknown_order_is_sequential (path_le : string -> string -> bool)
    (rnd : nat) (order : string) (w : world) :
  String.eqb order "random" = false ->
  (get_next_wallpaper path_le rnd order w).1 =
  (get_next_wallpaper path_le rnd "sequential" w).1.
Proof.
  intros Hord.
  destruct (decide (image_listing path_le w = [])) as [Hnil|Hne].
  - destruct (empty_listing_is_silent path_le rnd order w Hnil) as [-> _].
    destruct (empty_listing_is_silent path_le rnd "sequential" w Hnil) as [-> _].
    reflexivity.
  - destruct (loaded (state_file w)) as [v|e] eqn:Hload.
    + destruct v as [| | | | | |m];
        try (rewrite !get_next_wallpaper_no_dict;
             [reflexivity|exact Hne|rewrite Hload; discriminate
             |exact Hne|rewrite Hload; discriminate]).
      rewrite (get_next_wallpaper_run path_le rnd order w m Hne Hload),
        (get_next_wallpaper_run path_le rnd "sequential" w m Hne Hload).
      cbn zeta.
      assert (Hsel : forall v, select_index rnd order
                                 (length (image_listing path_le w)) v =
                               select_index rnd "sequential"
                                 (length (image_listing path_le w)) v).
      { intros v. unfold select_index. rewrite Hord. reflexivity. }
      rewrite Hsel.
      destruct (select_index rnd "sequential" _ _) as [i|e]; [|reflexivity].
      destruct (py_getitem _ i) as [p|e]; [|reflexivity].
      destruct (state_writable w); reflexivity.
    + rewrite !get_next_wallpaper_no_dict;
        [reflexivity|exact Hne|rewrite Hload; discriminate
        |exact Hne|rewrite Hload; discriminate].
Qed.

(** Under random order every image other than the current one can be
    drawn: for each index of the listing that differs from the stored value
    some draw of the generator selects it. *)
Theorem random_reaches_every_other_index (n : nat) (current_index : json) (j : Z) :
  (1 < n)%nat ->
  0 <= j < Z.of_nat n ->
  py_int_ne j current_index = true ->
  exists rnd, select_index rnd "random" n current_index = Ok (NInt j).
Proof.
  intros Hn Hj Hne.
  assert (Hin : j ∈ available_indices n current_index)
    by (apply elem_of_available_indices; auto).
  apply list_elem_of_lookup in Hin. destruct Hin as [k Hk].
  exists k. unfold select_index. simpl.
  destruct (Nat.ltb_spec 1 n) as [_|?]; [|lia].
  unfold random_choice.
  rewrite Nat.mod_small by (eapply lookup_lt_Some; exact Hk).
  rewrite Hk. reflexivity.
Qed.

(** What a rotation returns depends on the world only through the folder
    and the recorded index and count. *)
Lemma get_next_wallpaper_result_same (path_le : string -> string -> bool)
    (rnd : nat) (order : string) (w w' : world) (m m' : gmap string json) :
  folder w' = folder w ->
  loaded (state_file w) = Ok (JObject m) ->
  loaded (state_file w') = Ok (JObject m') ->
  recorded_index m' = recorded_index m ->
  recorded_count m' = recorded_count m ->
  (get_next_wallpaper path_le rnd order w').1 =
  (get_next_wallpaper path_le rnd order w).1.
Proof.
  intros Hfold Hload Hload' Hidx Hcnt.
  pose proof (image_listing_folder path_le w w' Hfold) as Hl.
  destruct (decide (image_listing path_le w = [])) as [Hnil|Hne].
  - destruct (empty_listing_is_silent path_le rnd order w Hnil) as [-> _].
    rewrite <- Hl in Hnil.
    destruct (empty_listing_is_silent path_le rnd order w' Hnil) as [-> _].
    reflexivity.
  - assert (Hne' : image_listing path_le w' <> []) by (rewrite Hl; exact Hne).
    rewrite (get_next_wallpaper_run path_le rnd order w m Hne Hload),
      (get_next_wallpaper_run path_le rnd order w' m' Hne' Hload').
    cbn zeta. rewrite Hl, Hidx, Hcnt.
    destruct (select_index rnd order _ _) as [i|e]; [|reflexivity].
    destruct (py_getitem _ i) as [p|e]; [|reflexivity].
    destruct (state_writable w), (state_writable w'); reflexivity.
Qed.

Lemma set_order_no_dict (order : string) (w : world) :
  order = "sequential" \/ order = "random" ->
  (forall m, loaded (state_file w) <> Ok (JObject m)) ->
  (set_order order w).2 = w.
Proof.
  intros Hvalid Hnd. unfold set_order.
  rewrite bool_decide_eq_true_2
    by (rewrite !elem_of_cons; destruct Hvalid; subst; auto).
  unfold mbind, M_bind, bind. simpl.
  rewrite load_state_run.
  destruct (loaded (state_file w)) as [[| | | | | |m]|e]; try reflexivity.
  by destruct (Hnd m).
Qed.


(** Two rotations in a row over an unchanged folder with more than one
    image, the second one random and the first write succeeding: the two
    selected indices differ, so no image is shown twice in a row. *)
Theorem consecutive_random_differs (path_le : string -> string -> bool)
    (rnd rnd' : nat) (order : string) (w : world) (m : gmap string json)
    (p : string) :
  (load_state w).1 = Ok (JObject m) ->
  state_writable w = true ->
  (1 < length (image_listing path_le w))%nat ->
  (get_next_wallpaper path_le rnd order w).1 = Ok (Some p) ->
  let w1 := (get_next_wallpaper path_le rnd order w).2 in
  exists i i' p',
    image_listing path_le w !! Z.to_nat i = Some p /\
    (get_next_wallpaper path_le rnd' "random" w1).1 = Ok (Some p') /\
    image_listing path_le w !! Z.to_nat i' = Some p' /\
    0 <= i /\ 0 <= i' /\ i <> i'.
Proof.
  intros Hload Hw Hn Hres w1. rewrite load_state_run in Hload. cbn [fst] in Hload.
  assert (Hne : image_listing path_le w <> [])
    by (destruct (image_listing path_le w); [simpl in Hn; lia|discriminate]).
  destruct (get_next_wallpaper_returns path_le rnd order w m p Hne Hload Hres)
    as (i & _ & Hb & Hp & Hworld).
  cbn zeta in Hworld. rewrite Hw in Hworld.
  set (n := length (image_listing path_le w)) in *.
  set (m1 := rotated_state m (NInt i) p n order) in *.
  assert (Hfold : folder w1 = folder w)
    by (unfold w1; rewrite Hworld; destruct (py_int_ne _ _); reflexivity).
  assert (Hfile : state_file w1 = Holds (JObject m1))
    by (unfold w1; rewrite Hworld; reflexivity).
  pose proof (image_listing_folder path_le w w1 Hfold) as Hl.
  assert (Hne1 : image_listing path_le w1 <> []) by (rewrite Hl; exact Hne).
  assert (Hload1 : loaded (state_file w1) = Ok (JObject m1))
    by (rewrite Hfile; reflexivity).
  pose proof (get_next_wallpaper_run path_le rnd' "random" w1 m1 Hne1 Hload1) as Hrun.
  cbn zeta in Hrun. rewrite Hl in Hrun. fold n in Hrun.
  unfold m1 in Hrun at 1 2.
  rewrite recorded_count_rotated, py_int_ne_refl, recorded_index_rotated in Hrun.
  simpl json_of_num in Hrun.
  destruct (select_index_random rnd' n (JInt i) Hn) as (i' & Hsel & Hb' & Hneq).
  destruct (py_getitem_in_range (image_listing path_le w) i' Hb') as (p' & Hp' & Hget).
  rewrite Hsel, Hget in Hrun.
  exists i, i', p'. split; [exact Hp|].
  split; [rewrite Hrun; destruct (state_writable w1); reflexivity|].
  split; [exact Hp'|]. split; [lia|]. split; [lia|].
  intros ->. rewrite py_int_ne_refl in Hneq. discriminate.
Qed.

(** ** More on applying a wallpaper *)

(** The events [set_wallpaper] adds to the trace, case by case. *)
Lemma set_wallpaper_events (image_path : string) (w : world) :
  new_events w (set_wallpaper image_path w).2 =
    match resolve w image_path with
    | Raise e => [Printed (MsgErrorSetting e)]
    | Ok p =>
        if helper_succeeds (powershell w p) then [RunPowerShell p]
        else
          ([RunPowerShell p; Printed (helper_failure_message (powershell w p));
            Printed MsgFallback; SystemParametersInfoW p] ++
           match native_call w p with
           | Ok _ => []
           | Raise e => [Printed (MsgErrorSetting e)]
           end)%list
    end.
Proof.
  rewrite set_wallpaper_run.
  destruct (resolve w image_path) as [p|e]; cbn zeta.
  - destruct (helper_succeeds (powershell w p)).
    + apply new_events_app. reflexivity.
    + destruct (native_call w p) as [z|e]; apply new_events_app;
        simpl; rewrite <- !app_assoc; reflexivity.
  - apply new_events_app. reflexivity.
Qed.

(** [set_wallpaper] touches neither the state file nor the folder, and both
    tiers are handed the resolved path, never the path as given. *)
Theorem set_wallpaper_uses_resolved_path (image_path : string) (w : world) :
  state_file (set_wallpaper image_path w).2 = state_file w /\
  folder (set_wallpaper image_path w).2 = folder w /\
  forall ev, ev ∈ new_events w (set_wallpaper image_path w).2 ->
    is_tier1 ev || is_tier2 ev = true ->
    exists p, resolve w image_path = Ok p /\
              (ev = RunPowerShell p \/ ev = SystemParametersInfoW p).
Proof.
  split; [|split].
  - rewrite set_wallpaper_run.
    destruct (resolve w image_path) as [p|e]; cbn zeta; [|reflexivity].
    destruct (helper_succeeds (powershell w p)); [reflexivity|].
    destruct (native_call w p); reflexivity.
  - rewrite set_wallpaper_run.
    destruct (resolve w image_path) as [p|e]; cbn zeta; [|reflexivity].
    destruct (helper_succeeds (powershell w p)); [reflexivity|].
    destruct (native_call w p); reflexivity.
  - intros ev. rewrite set_wallpaper_events.
    destruct (resolve w image_path) as [p|e].
    + intros Hin Htier. exists p. split; [reflexivity|].
      destruct (helper_succeeds (powershell w p)).
      * apply list_elem_of_singleton in Hin. auto.
      * destruct (native_call w p); cbn [app] in Hin;
          repeat (first [ apply elem_of_nil in Hin; contradiction
                        | apply elem_of_cons in Hin; destruct Hin as [Hin|Hin] ]);
          subst; auto; discriminate.
    + intros Hin Htier. apply list_elem_of_singleton in Hin. subst. discriminate.
Qed.

(** A failure is never silent: when [set_wallpaper] returns [False] at least
    one diagnostic was printed; and when the helper succeeds nothing is
    printed and the native call is not made. *)
Theorem set_wallpaper_failure_is_reported (image_path : string) (w : world) :
  ((set_wallpaper image_path w).1 = Ok false ->
   exists msg, Printed msg ∈ new_events w (set_wallpaper image_path w).2) /\
  (forall p, resolve w image_path = Ok p ->
     helper_succeeds (powershell w p) = true ->
     (set_wallpaper image_path w).1 = Ok true /\
     new_events w (set_wallpaper image_path w).2 = [RunPowerShell p]).
Proof.
  split.
  - rewrite set_wallpaper_events, set_wallpaper_run.
    destruct (resolve w image_path) as [p|e]; cbn zeta.
    + destruct (helper_succeeds (powershell w p)); [discriminate|].
      intros _. exists (helper_failure_message (powershell w p)).
      cbn [app]. rewrite !elem_of_cons. auto.
    + intros _. exists (MsgErrorSetting e). apply list_elem_of_singleton. reflexivity.
  - intros p Hp Hok. rewrite set_wallpaper_events, set_wallpaper_run, Hp.
    cbn zeta. rewrite Hok. auto.
Qed.

(** What [set_wallpaper] returns only depends on the path and on the three
    collaborators. *)
Lemma set_wallpaper_result_same (image_path : string) (w w' : world) :
  resolve w' = resolve w -> powershell w' = powershell w ->
  native_call w' = native_call w ->
  (set_wallpaper image_path w').1 = (set_wallpaper image_path w).1.
Proof.
  intros Hr Hp Hn. rewrite !set_wallpaper_run, Hr, Hp, Hn.
  destruct (resolve w image_path) as [p|e]; cbn zeta; [|reflexivity].
  destruct (helper_succeeds (powershell w p)); [reflexivity|].
  destruct (native_call w p); reflexivity.
Qed.

(** ** The capability probe *)

(** [check_virtualdesktop_support] never raises and changes nothing: an
    exception of the probe, a timeout included, gives [False]; the answer is
    [True] exactly when the probe exits with 0 and prints SUPPORTED. *)
Theorem probe_never_raises (probe : ps_outcome) (w : world) :
  exists b,
    check_virtualdesktop_support probe w = (Ok b, w) /\
    (b = true <->
     exists stdout stderr,
       probe = PsCompleted 0 stdout stderr /\ contains "SUPPORTED" stdout = true).
Proof.
  unfold check_virtualdesktop_support, try_except.
  destruct probe as [e|rc out err]; simpl.
  - rewrite isinstance_Exception. exists false. split; [reflexivity|].
    split; [discriminate|]. intros (? & ? & ? & _). discriminate.
  - eexists. split; [reflexivity|]. split.
    + intros H. apply andb_true_iff in H. destruct H as [Hrc Hout].
      apply Z.eqb_eq in Hrc. subst. eauto.
    + intros (o & e & [= -> -> ->] & Hout). rewrite Hout. reflexivity.
Qed.

(** ** The status *)

Lemma keeps_world_bind {A B} (c : M A) (k : A -> M B) :
  keeps_world c -> (forall a, keeps_world (k a)) -> keeps_world (c ≫= k).
Proof.
  intros Hc Hk w. unfold mbind, M_bind, bind.
  specialize (Hc w). destruct (c w) as [[a|e] w']; simpl in *; subst.
  - apply Hk.
  - reflexivity.
Qed.

Lemma keeps_world_lift {A} (r : result A) : keeps_world (lift r).
Proof. intros w. reflexivity. Qed.

Lemma keeps_world_mret {A} (a : A) : keeps_world (mret a : M A).
Proof. intros w. reflexivity. Qed.

Lemma keeps_world_load_state : keeps_world load_state.
Proof. intros w. rewrite load_state_run. reflexivity. Qed.

Lemma keeps_world_get_status (path_le : string -> string -> bool)
    (name_of : string -> string) (wallpaper_folder : string) :
  keeps_world (get_status path_le name_of wallpaper_folder).
Proof.
  unfold get_status.
  apply keeps_world_bind; [intros w; reflexivity|]. intros image_files.
  apply keeps_world_bind; [apply keeps_world_load_state|]. intros state.
  apply keeps_world_bind; [apply keeps_world_lift|]. intros index.
  apply keeps_world_bind; [apply keeps_world_lift|]. intros in_range.
  apply keeps_world_bind.
  { destruct in_range; [|apply keeps_world_mret].
    repeat (apply keeps_world_bind; [apply keeps_world_lift|]; intros ?).
    apply keeps_world_mret. }
  intros current.
  repeat (apply keeps_world_bind; [apply keeps_world_lift|]; intros ?).
  apply keeps_world_mret.
Qed.

(** [get_status] only reads: whatever the state file and the folder hold,
    and also when it raises, the world afterwards is the world before; no
    state file is created. *)
Theorem get_status_changes_nothing (path_le : string -> string -> bool)
    (name_of : string -> string) (wallpaper_folder : string) (w : world) :
  (get_status path_le name_of wallpaper_folder w).2 = w.
Proof. apply keeps_world_get_status. Qed.

(** The status over a dict state whose index is an int. *)
Lemma get_status_int (path_le : string -> string -> bool)
    (name_of : string -> string) (wallpaper_folder : string)
    (w : world) (m : gmap string json) (c : Z) :
  loaded (state_file w) = Ok (JObject m) ->
  recorded_index m = JInt c ->
  let l := image_listing path_le w in
  (get_status path_le name_of wallpaper_folder w).1 =
    Ok {| total_images := length l;
          status_current_index := JInt c;
          current_wallpaper :=
            if (0 <=? c) && (c <? Z.of_nat (length l))
            then name_of <$> l !! Z.to_nat c else None;
          status_order := default (JString "sequential") (m !! "order");
          status_wallpaper_folder := wallpaper_folder |}.
Proof.
  intros Hload Hc l.
  unfold get_status, get_image_files, mbind, M_bind, bind.
  rewrite load_state_run, Hload. fold l.
  unfold lift, dict_get. fold (recorded_index m). rewrite Hc.
  unfold py_chained, py_int_le, py_lt_int. simpl.
  destruct (Z.leb_spec 0 c) as [H0|H0]; simpl; [|reflexivity].
  destruct (Z.ltb_spec c (Z.of_nat (length l))) as [Hn|Hn]; simpl; [|reflexivity].
  assert (Hkey : m !! "current_index" = Some (JInt c)).
  { unfold recorded_index in Hc. destruct (m !! "current_index") as [v|].
    - simpl in Hc. congruence.
    - simpl in Hc. injection Hc as <-. lia. }
  rewrite Hkey. cbn -[py_getitem].
  destruct (py_getitem_in_range l c) as (p & Hp & Hget); [lia|].
  rewrite Hget, Hp. reflexivity.
Qed.

(** Over a dict state with an int index [c], [get_status] reports the
    number of images, the index as stored, the stored order ("sequential"
    when absent) and the folder; the current wallpaper is the name of image
    [c] when [0 <= c < len(listing)] and absent otherwise: an index out of
    range, negative or stale, does not raise. *)
Theorem get_status_reports (path_le : string -> string -> bool)
    (name_of : string -> string) (wallpaper_folder : string)
    (w : world) (m : gmap string json) (c : Z) :
  (load_state w).1 = Ok (JObject m) ->
  recorded_index m = JInt c ->
  let l := image_listing path_le w in
  (get_status path_le name_of wallpaper_folder w).1 =
    Ok {| total_images := length l;
          status_current_index := JInt c;
          current_wallpaper :=
            if (0 <=? c) && (c <? Z.of_nat (length l))
            then name_of <$> l !! Z.to_nat c else None;
          status_order := default (JString "sequential") (m !! "order");
          status_wallpaper_folder := wallpaper_folder |}.
Proof.
  intros Hload Hc. rewrite load_state_run in Hload. cbn [fst] in Hload.
  by apply get_status_int.
Qed.

(** After a rotation that returned an image and whose write succeeded,
    [get_status] reports that image as the current wallpaper, together with
    its index, the length of the listing and the order of the rotation. *)
Theorem status_after_rotation (path_le : string -> string -> bool)
    (name_of : string -> string) (wallpaper_folder : string)
    (rnd : nat) (order : string) (w : world) (m : gmap string json) (p : string) :
  (load_state w).1 = Ok (JObject m) ->
  state_writable w = true ->
  (get_next_wallpaper path_le rnd order w).1 = Ok (Some p) ->
  exists i,
    image_listing path_le w !! Z.to_nat i = Some p /\
    (get_status path_le name_of wallpaper_folder
       (get_next_wallpaper path_le rnd order w).2).1 =
      Ok {| total_images := length (image_listing path_le w);
            status_current_index := JInt i;
            current_wallpaper := Some (name_of p);
            status_order := JString order;
            status_wallpaper_folder := wallpaper_folder |}.
Proof.
  intros Hload Hw Hres. rewrite load_state_run in Hload. cbn [fst] in Hload.
  assert (Hne : image_listing path_le w <> []).
  { intros Hnil. destruct (empty_listing_is_silent path_le rnd order w Hnil) as [H _].
    congruence. }
  destruct (get_next_wallpaper_returns path_le rnd order w m p Hne Hload Hres)
    as (i & _ & Hb & Hp & Hworld).
  cbn zeta in Hworld. rewrite Hw in Hworld.
  set (w1 := (get_next_wallpaper path_le rnd order w).2) in *.
  set (n := length (image_listing path_le w)) in *.
  assert (Hl : image_listing path_le w1 = image_listing path_le w).
  { apply image_listing_folder. rewrite Hworld.
    destruct (py_int_ne _ _); reflexivity. }
  exists i. split; [exact Hp|].
  rewrite (get_status_int path_le name_of wallpaper_folder w1
             (rotated_state m (NInt i) p n order) i).
  - rewrite Hl. fold n.
    destruct (Z.leb_spec 0 i) as [_|?]; [|lia].
    destruct (Z.ltb_spec i (Z.of_nat n)) as [_|?]; [|lia].
    simpl andb. cbv iota. rewrite Hp. simpl.
    replace (rotated_state m (NInt i) p n order !! "order")
      with (Some (JString order)) by (unfold rotated_state; by simplify_map_eq).
    reflexivity.
  - rewrite Hworld. reflexivity.
  - apply recorded_index_rotated.
Qed.

(** A stored [current_index] that is no number makes [get_status] raise
    [TypeError] (the comparison with 0 is not defined); a state that is not
    a dict makes it raise [AttributeError]. *)
Theorem get_status_rejects_bad_state (path_le : string -> string -> bool)
    (name_of : string -> string) (wallpaper_folder : string)
    (w : world) (v : json) :
  (load_state w).1 = Ok v ->
  (forall m, v = JObject m ->
     recorded_index m = JNull \/ (exists s, recorded_index m = JString s) \/
     (exists l, recorded_index m = JArray l) \/
     (exists o, recorded_index m = JObject o) ->
     (get_status path_le name_of wallpaper_folder w).1 = Raise TypeError) /\
  ((forall m, v <> JObject m) ->
   (get_status path_le name_of wallpaper_folder w).1 = Raise AttributeError).
Proof.
  intros Hload. rewrite load_state_run in Hload. cbn [fst] in Hload.
  split.
  - intros m -> Hbad.
    unfold get_status, get_image_files, mbind, M_bind, bind.
    rewrite load_state_run, Hload.
    unfold lift, dict_get. fold (recorded_index m).
    destruct Hbad as [->|[[s ->]|[[l ->]|[o ->]]]]; reflexivity.
  - intros Hnd.
    unfold get_status, get_image_files, mbind, M_bind, bind.
    rewrite load_state_run, Hload.
    destruct v as [| | | | | |m]; try reflexivity. by destruct (Hnd m).
Qed.

(** ** Rotating from the command line *)

Lemma new_events_refl (w : world) : new_events w w = [].
Proof. unfold new_events. apply drop_all. Qed.

Lemma in_world_run {A} (c : M A) (s : session) :
  in_world c s =
    ((c (sworld s)).1,
     {| sworld := (c (sworld s)).2;
        console := console s ++ (Base <$> new_events (sworld s) (c (sworld s)).2) |}).
Proof. unfold in_world. destruct (c (sworld s)). reflexivity. Qed.

(** The result and the final world of [rotate_wallpaper], by what the
    selection gives. *)
Lemma rotate_wallpaper_run (path_le : string -> string -> bool)
    (name_of : string -> string) (rnd : nat) (order : string) (verbose : bool)
    (s : session) :
  let next := get_next_wallpaper path_le rnd order (sworld s) in
  let r := rotate_wallpaper path_le name_of rnd order verbose s in
  match next.1 with
  | Ok (Some p) =>
      r.1 = (set_wallpaper p next.2).1 /\ sworld r.2 = (set_wallpaper p next.2).2
  | Ok None => r.1 = Ok false /\ sworld r.2 = next.2
  | Raise e => r.1 = Raise e /\ sworld r.2 = next.2
  end.
Proof.
  intros next r. subst next r.
  unfold rotate_wallpaper, mbind, C_bind, in_world.
  destruct (get_next_wallpaper path_le rnd order (sworld s)) as [[[p|]|e] w1];
    cbn [fst snd sworld]; try (split; reflexivity).
  destruct verbose; unfold say, mret, C_ret; cbn [fst snd sworld];
    destruct (set_wallpaper p w1) as [[[|]|e] w2]; cbn [fst snd sworld andb];
    split; reflexivity.
Qed.

(** With no image in the folder [rotate_wallpaper] returns [False]: no tier
    is attempted and the state file is not touched; the console only gets
    the message of [get_next_wallpaper]. *)
Theorem rotate_wallpaper_empty_folder (path_le : string -> string -> bool)
    (name_of : string -> string) (rnd : nat) (order : string) (verbose : bool)
    (s : session) :
  image_listing path_le (sworld s) = [] ->
  rotate_wallpaper path_le name_of rnd order verbose s =
    (Ok false,
     {| sworld := add_event (Printed MsgNoImages) (sworld s);
        console := console s ++ [Base (Printed MsgNoImages)] |}).
Proof.
  intros Hnil. unfold rotate_wallpaper.
  unfold mbind at 1. unfold C_bind. rewrite in_world_run.
  pose proof (empty_listing_is_silent path_le rnd order (sworld s) Hnil) as [H1 _].
  assert (H2 : (get_next_wallpaper path_le rnd order (sworld s)).2 =
               add_event (Printed MsgNoImages) (sworld s)).
  { unfold get_next_wallpaper, get_image_files, mbind, M_bind, bind.
    rewrite Hnil. reflexivity. }
  rewrite H1, H2.
  rewrite (new_events_app (sworld s) _ [Printed MsgNoImages]) by reflexivity.
  reflexivity.
Qed.


(** ** The command line *)

Lemma exits_bind {A} (c : C A) (k : A -> C Z) :
  (forall a, exits_0_or_1 (k a)) -> exits_0_or_1 (c ≫= k).
Proof.
  intros Hk s. unfold mbind, C_bind.
  destruct (c s) as [[a|e] s']; [apply Hk|exact I].
Qed.

Lemma exits_mret (code : Z) : code = 0 \/ code = 1 -> exits_0_or_1 (mret code).
Proof. intros H s. exact H. Qed.

Lemma exits_try_except_cli (body : C Z) (handler : exn -> C Z) :
  exits_0_or_1 body -> (forall e, exits_0_or_1 (handler e)) ->
  exits_0_or_1 (try_except_cli body handler).
Proof.
  intros Hb Hh s. unfold try_except_cli. specialize (Hb s).
  destruct (body s) as [[a|e] s']; [exact Hb|].
  rewrite isinstance_Exception. apply Hh.
Qed.

Lemma keeps_sworld_bind {A B} (c : C A) (k : A -> C B) :
  keeps_sworld c -> (forall a, keeps_sworld (k a)) -> keeps_sworld (c ≫= k).
Proof.
  intros Hc Hk s. unfold mbind, C_bind. specialize (Hc s).
  destruct (c s) as [[a|e] s']; simpl in *; [|exact Hc].
  rewrite Hk. exact Hc.
Qed.

Lemma keeps_sworld_mret {A} (a : A) : keeps_sworld (mret a : C A).
Proof. intros s. reflexivity. Qed.

Lemma keeps_sworld_say (m : cli_message) : keeps_sworld (say m).
Proof. intros s. reflexivity. Qed.

Lemma keeps_sworld_in_world {A} (c : M A) : keeps_world c -> keeps_sworld (in_world c).
Proof. intros Hc s. rewrite in_world_run. apply Hc. Qed.

Lemma keeps_sworld_try_except_cli {A} (body : C A) (handler : exn -> C A) :
  keeps_sworld body -> (forall e, keeps_sworld (handler e)) ->
  keeps_sworld (try_except_cli body handler).
Proof.
  intros Hb Hh s. unfold try_except_cli. specialize (Hb s).
  destruct (body s) as [[a|e] s']; simpl in *; [exact Hb|].
  rewrite isinstance_Exception, Hh. exact Hb.
Qed.

Lemma keeps_world_init_rotator (folder_exists : bool) :
  keeps_world (init_rotator folder_exists).
Proof. intros w. destruct folder_exists; reflexivity. Qed.

Lemma keeps_world_probe (probe : ps_outcome) :
  keeps_world (check_virtualdesktop_support probe).
Proof.
  intros w. unfold check_virtualdesktop_support, try_except.
  destruct probe as [e|rc out err]; simpl; [|reflexivity].
  rewrite isinstance_Exception. reflexivity.
Qed.


(** When the wallpaper folder does not exist [main] stops at once: exit code
    1, the error on the console, the world untouched, whatever the flags. *)
Theorem main_missing_folder (path_le : string -> string -> bool)
    (name_of : string -> string) (wallpaper_folder : string)
    (args : arguments) (probe : ps_outcome) (rnd : nat) (s : session) :
  main path_le name_of wallpaper_folder args false probe rnd s =
    (Ok 1, {| sworld := sworld s;
              console := console s ++ [Cli (CliError FileNotFoundError)] |}).
Proof.
  unfold main, try_except_cli.
  unfold mbind at 1. unfold C_bind. rewrite in_world_run.
  cbn [init_rotator raise fst snd]. rewrite new_events_refl.
  simpl. rewrite app_nil_r. reflexivity.
Qed.

(** [--check-support] and [--status] only look: with either flag the world
    after [main] is the world before, so no state file is written or created
    and no wallpaper is applied, also when [--reset] is given with them. *)
Theorem main_queries_change_nothing (path_le : string -> string -> bool)
    (name_of : string -> string) (wallpaper_folder : string)
    (args : arguments) (folder_exists : bool) (probe : ps_outcome) (rnd : nat)
    (s : session) :
  arg_check_support args = true \/ arg_status args = true ->
  sworld (main path_le name_of wallpaper_folder args folder_exists probe rnd s).2 =
    sworld s.
Proof.
  intros Hq.
  assert (Hk : keeps_sworld
                 (main path_le name_of wallpaper_folder args folder_exists probe rnd)).
  { unfold main. apply keeps_sworld_try_except_cli.
    - apply keeps_sworld_bind;
        [apply keeps_sworld_in_world, keeps_world_init_rotator|]. intros _.
      destruct (arg_check_support args) eqn:Hcs.
      + apply keeps_sworld_bind;
          [apply keeps_sworld_in_world, keeps_world_probe|]. intros b.
        apply keeps_sworld_bind; [|intros _; apply keeps_sworld_mret].
        destruct b; [apply keeps_sworld_say|].
        apply keeps_sworld_bind; [apply keeps_sworld_say|].
        intros _. apply keeps_sworld_say.
      + destruct Hq as [Hq|Hq]; [discriminate|]. rewrite Hq.
        apply keeps_sworld_bind;
          [apply keeps_sworld_in_world, keeps_world_get_status|]. intros st.
        repeat (apply keeps_sworld_bind; [apply keeps_sworld_say|]; intros _).
        apply keeps_sworld_bind;
          [apply keeps_sworld_in_world, keeps_world_probe|]. intros b.
        apply keeps_sworld_bind; [apply keeps_sworld_say|]. intros _.
        apply keeps_sworld_mret.
    - intros e. apply keeps_sworld_bind; [apply keeps_sworld_say|].
      intros _. apply keeps_sworld_mret. }
  apply Hk.
Qed.

Lemma check_virtualdesktop_support_run (probe : ps_outcome) (w : world) :
  exists b, check_virtualdesktop_support probe w = (Ok b, w).
Proof.
  unfold check_virtualdesktop_support, try_except.
  destruct probe as [e|rc out err]; simpl; [|eauto].
  rewrite isinstance_Exception. eauto.
Qed.

(** The capability warning never fails and only prints. *)
Lemma support_warning_run (quiet : bool) (probe : ps_outcome) (s : session) :
  exists lines,
    support_warning quiet probe s =
      (Ok tt, {| sworld := sworld s; console := console s ++ lines |}).
Proof.
  unfold support_warning. destruct quiet; simpl.
  - exists []. rewrite app_nil_r. destruct s. reflexivity.
  - unfold mbind at 1. unfold C_bind. rewrite in_world_run.
    destruct (check_virtualdesktop_support_run probe (sworld s)) as [b ->].
    cbn [fst snd]. rewrite new_events_refl. simpl. rewrite app_nil_r.
    destruct b; simpl.
    + exists []. rewrite app_nil_r. reflexivity.
    + eexists. unfold mbind, C_bind, say. cbn [fst snd sworld console].
      rewrite <- !app_assoc. reflexivity.
Qed.

Lemma set_order_raises (order : string) (w : world) (e : exn) :
  order = "sequential" \/ order = "random" ->
  loaded (state_file w) = Raise e ->
  set_order order w = (Raise e, w).
Proof.
  intros Hvalid Hload. unfold set_order.
  rewrite bool_decide_eq_true_2
    by (rewrite !elem_of_cons; destruct Hvalid; subst; auto).
  unfold mbind, M_bind, bind. simpl.
  rewrite load_state_run, Hload. reflexivity.
Qed.

Lemma reset_rotation_raises (w : world) (e : exn) :
  loaded (state_file w) = Raise e -> reset_rotation w = (Raise e, w).
Proof.
  intros Hload. unfold reset_rotation, mbind, M_bind, bind.
  rewrite load_state_run, Hload. reflexivity.
Qed.

(** [main] without [--check-support] and [--status], the folder existing. *)
Lemma main_run (path_le : string -> string -> bool)
    (name_of : string -> string) (wallpaper_folder : string)
    (args : arguments) (probe : ps_outcome) (rnd : nat) (s : session) :
  arg_check_support args = false ->
  arg_status args = false ->
  main path_le name_of wallpaper_folder args true probe rnd s =
    try_except_cli
      (if arg_reset args then in_world reset_rotation;; mret 0
       else
         support_warning (arg_quiet args) probe;;
         in_world (set_order (arg_order args));;
         success ← rotate_wallpaper path_le name_of rnd (arg_order args)
                     (negb (arg_quiet args));
         if negb success then mret 1 else mret 0)
      (fun e => say (CliError e);; mret 1) s.
Proof.
  intros Hcs Hst. unfold main, try_except_cli.
  unfold mbind at 1. unfold C_bind at 1. rewrite in_world_run.
  cbn [init_rotator fst snd]. unfold mret at 1. unfold M_ret, ret.
  cbn [fst snd]. rewrite new_events_refl. simpl fmap. rewrite app_nil_r.
  rewrite Hcs, Hst. destruct s. reflexivity.
Qed.

Lemma set_wallpaper_total (image_path : string) (w : world) :
  exists b, (set_wallpaper image_path w).1 = Ok b.
Proof.
  rewrite set_wallpaper_run.
  destruct (resolve w image_path) as [p|e]; cbn zeta; [|eauto].
  destruct (helper_succeeds (powershell w p)); [eauto|].
  destruct (native_call w p); eauto.
Qed.

(** A rotation changes neither the folder nor the collaborators. *)
Lemma get_next_wallpaper_surroundings (path_le : string -> string -> bool)
    (rnd : nat) (order : string) (w : world) :
  same_surroundings w (get_next_wallpaper path_le rnd order w).2.
Proof.
  unfold same_surroundings.
  destruct (decide (image_listing path_le w = [])) as [Hnil|Hne].
  - unfold get_next_wallpaper, get_image_files, mbind, M_bind, bind.
    rewrite Hnil. simpl. auto.
  - destruct (loaded (state_file w)) as [v|e] eqn:Hload.
    + destruct v as [| | | | | |m];
        try (rewrite get_next_wallpaper_no_dict;
             [simpl; auto|exact Hne|rewrite Hload; discriminate]).
      rewrite (get_next_wallpaper_run path_le rnd order w m Hne Hload). cbn zeta.
      destruct (py_int_ne _ _);
        (destruct (select_index rnd order _ _) as [i|e]; [|simpl; auto]);
        (destruct (py_getitem _ i) as [p|e]; [|simpl; auto]);
        destruct (state_writable w); simpl; auto.
    + rewrite get_next_wallpaper_no_dict;
        [simpl; auto|exact Hne|rewrite Hload; discriminate].
Qed.

(** Over a dict state with an int index and a non-empty listing a rotation
    returns an image of the listing. *)
Lemma get_next_wallpaper_int_returns (path_le : string -> string -> bool)
    (rnd : nat) (order : string) (w : world) (m : gmap string json) (c : Z) :
  image_listing path_le w <> [] ->
  loaded (state_file w) = Ok (JObject m) ->
  recorded_index m = JInt c ->
  exists p, (get_next_wallpaper path_le rnd order w).1 = Ok (Some p) /\
            p ∈ image_listing path_le w.
Proof.
  intros Hne Hload Hc.
  pose proof (listing_length_pos path_le w Hne) as Hpos.
  rewrite (get_next_wallpaper_run path_le rnd order w m Hne Hload). cbn zeta.
  set (n := length (image_listing path_le w)) in *.
  assert (Hstart : exists c', (if py_int_ne (Z.of_nat n) (recorded_count m)
                               then JInt (-1) else recorded_index m) = JInt c')
    by (rewrite Hc; destruct (py_int_ne _ _); eauto).
  destruct Hstart as [c' ->].
  destruct (select_index_int_bounds rnd order n c' Hpos) as (i & -> & Hb).
  destruct (py_getitem_in_range (image_listing path_le w) i Hb) as (p & Hp & ->).
  exists p. split; [destruct (state_writable w); reflexivity|].
  apply list_elem_of_lookup. eauto.
Qed.

(** [--reset] alone resets and stops: exit code 0, the world is the one
    [reset_rotation] leaves, so the recorded index is -1 when the write
    succeeds, the folder is not even listed and no tier is attempted. *)
Theorem main_reset (path_le : string -> string -> bool)
    (name_of : string -> string) (wallpaper_folder : string)
    (args : arguments) (probe : ps_outcome) (rnd : nat) (s : session)
    (m : gmap string json) :
  arg_check_support args = false ->
  arg_status args = false ->
  arg_reset args = true ->
  (load_state (sworld s)).1 = Ok (JObject m) ->
  let r := main path_le name_of wallpaper_folder args true probe rnd s in
  r.1 = Ok 0 /\
  sworld r.2 = (reset_rotation (sworld s)).2 /\
  (load_state (sworld r.2)).1 =
    Ok (JObject (if state_writable (sworld s)
                 then <["current_index" := JInt (-1)]> m else m)) /\
  attempts is_tier1 (new_events (sworld s) (sworld r.2)) = 0%nat /\
  attempts is_tier2 (new_events (sworld s) (sworld r.2)) = 0%nat.
Proof.
  intros Hcs Hst Hreset Hload r. subst r.
  rewrite load_state_run in Hload. cbn [fst] in Hload.
  rewrite main_run by assumption. rewrite Hreset.
  unfold try_except_cli, mbind, C_bind. rewrite in_world_run.
  rewrite (reset_rotation_run (sworld s) m Hload). cbn [fst snd sworld].
  split; [reflexivity|]. split; [reflexivity|].
  rewrite load_state_run. cbn [fst].
  destruct (state_writable (sworld s)).
  - split; [reflexivity|].
    rewrite (new_events_app (sworld s) _ [Printed MsgRotationReset]) by reflexivity.
    split; reflexivity.
  - split; [simpl; exact Hload|].
    rewrite (new_events_app (sworld s) _
               [Printed (MsgSaveWarning PermissionError); Printed MsgRotationReset])
      by (simpl; rewrite <- app_assoc; reflexivity).
    split; reflexivity.
Qed.

(** What [load_state] lets through does not crash the command line: when
    loading the state raises, a reset or a rotation ends with exit code 1
    and the error as the last line of the console, and the world is as
    before (nothing written, no wallpaper applied). *)
Theorem main_contains_load_failure (path_le : string -> string -> bool)
    (name_of : string -> string) (wallpaper_folder : string)
    (args : arguments) (probe : ps_outcome) (rnd : nat) (s : session) (e : exn) :
  arg_check_support args = false ->
  arg_status args = false ->
  arg_reset args = true \/
    (arg_order args = "sequential" \/ arg_order args = "random") ->
  (load_state (sworld s)).1 = Raise e ->
  let r := main path_le name_of wallpaper_folder args true probe rnd s in
  r.1 = Ok 1 /\
  sworld r.2 = sworld s /\
  last (console r.2) = Some (Cli (CliError e)).
Proof.
  intros Hcs Hst Hmode Hload r. subst r.
  rewrite load_state_run in Hload. cbn [fst] in Hload.
  assert (Hmain : exists lines,
    main path_le name_of wallpaper_folder args true probe rnd s =
      (Ok 1, {| sworld := sworld s;
                console := (console s ++ lines) ++ [Cli (CliError e)] |})).
  { rewrite main_run by assumption.
    destruct (arg_reset args) eqn:Hreset.
    - unfold try_except_cli, mbind, C_bind. rewrite in_world_run.
      rewrite (reset_rotation_raises (sworld s) e Hload). cbn [fst snd].
      rewrite isinstance_Exception. unfold say. cbn [fst snd sworld console].
      rewrite new_events_refl. exists []. reflexivity.
    - destruct Hmode as [?|Hvalid]; [discriminate|].
      unfold try_except_cli. unfold mbind at 1. unfold C_bind at 1.
      destruct (support_warning_run (arg_quiet args) probe s) as [lines ->].
      unfold mbind at 1. unfold C_bind at 1. rewrite in_world_run.
      cbn [sworld console].
      rewrite (set_order_raises (arg_order args) (sworld s) e Hvalid Hload).
      cbn [fst snd].
      rewrite isinstance_Exception. unfold mbind, C_bind, say.
      cbn [fst snd sworld console].
      rewrite new_events_refl. exists lines. simpl. rewrite app_nil_r.
      reflexivity. }
  destruct Hmain as [lines ->]. cbn [fst snd sworld console].
  split; [reflexivity|]. split; [reflexivity|]. apply last_snoc.
Qed.


(** ** Witnesses of the further properties *)

Lemma listing_sorted_witness :
  StronglySorted (fun x y => String.leb x y = true)
    (image_listing String.leb fresh_world).
Proof.
  apply (listing_sorted String.leb fresh_world String.leb_total string_leb_trans).
Defined.

Lemma listing_order_independent_witness :
  folder fresh_world ≡ₚ folder shuffled_world /\
  image_listing String.leb fresh_world = image_listing String.leb shuffled_world.
Proof.
  assert (Hperm : folder fresh_world ≡ₚ folder shuffled_world)
    by (symmetry; apply reverse_Permutation).
  split; [exact Hperm|].
  apply (listing_order_independent String.leb fresh_world shuffled_world
           String.leb_total string_leb_trans String.leb_antisym Hperm).
Defined.


Lemma returned_wallpaper_is_image_witness :
  (get_next_wallpaper String.leb 0 "sequential" fresh_world).1 = Ok (Some "a.png") /\
  exists d, d ∈ folder fresh_world /\ entry_path d = "a.png" /\
            entry_is_file d = true /\ lower (entry_suffix d) ∈ supported_formats.
Proof.
  assert (H : (get_next_wallpaper String.leb 0 "sequential" fresh_world).1 =
              Ok (Some "a.png")) by (vm_compute; reflexivity).
  split; [exact H|].
  apply (returned_wallpaper_is_image String.leb 0 "sequential" fresh_world "a.png" H).
Defined.

Lemma rotation_records_choice_witness :
  (get_next_wallpaper String.leb 0 "shuffle" fresh_world).1 = Ok (Some "a.png") /\
  exists m',
    (load_state (get_next_wallpaper String.leb 0 "shuffle" fresh_world).2).1 =
      Ok (JObject m') /\
    m' !! "last_wallpaper" = Some (JString "a.png") /\
    m' !! "order" = Some (JString "shuffle").
Proof.
  assert (H : (get_next_wallpaper String.leb 0 "shuffle" fresh_world).1 =
              Ok (Some "a.png")) by (vm_compute; reflexivity).
  split; [exact H|].
  destruct (rotation_records_choice String.leb 0 "shuffle" fresh_world
              default_state "a.png" eq_refl eq_refl H)
    as (i & m' & Hm' & _ & _ & _ & Hlast & _ & Hord & _).
  exists m'. auto.
Defined.


Lemma non_dict_state_rejected_witness :
  image_listing String.leb list_state_world <> [] /\
  get_next_wallpaper String.leb 0 "random" list_state_world =
    (Raise AttributeError, list_state_world) /\
  set_order "random" list_state_world = (Raise TypeError, list_state_world) /\
  reset_rotation list_state_world = (Raise TypeError, list_state_world).
Proof.
  assert (Hne : image_listing String.leb list_state_world <> [])
    by (vm_compute; discriminate).
  split; [exact Hne|].
  destruct (non_dict_state_rejected String.leb 0 "random" list_state_world
              (JArray []) eq_refl ltac:(discriminate)) as (H1 & H2 & H3).
  split; [exact (H1 Hne)|]. split; [exact (H2 (or_intror eq_refl))|exact H3].
Defined.

Lemma random_accepts_any_index_witness :
  image_listing String.leb odd_world <> [] /\
  exists p, (get_next_wallpaper String.leb 5 "random" odd_world).1 = Ok (Some p).
Proof.
  assert (Hne : image_listing String.leb odd_world <> [])
    by (vm_compute; discriminate).
  split; [exact Hne|].
  destruct (random_accepts_any_index String.leb 5 odd_world odd_dict Hne eq_refl)
    as (p & H & _).
  exists p. exact H.
Defined.

Lemma sequential_rejects_non_integer_index_witness :
  image_listing String.leb odd_world <> [] /\
  recorded_index odd_dict = JString "x" /\
  get_next_wallpaper String.leb 0 "sequential" odd_world = (Raise TypeError, odd_world).
Proof.
  assert (Hne : image_listing String.leb odd_world <> [])
    by (vm_compute; discriminate).
  assert (Hidx : recorded_index odd_dict = JString "x") by (vm_compute; reflexivity).
  split; [exact Hne|]. split; [exact Hidx|].
  apply (sequential_rejects_non_integer_index String.leb 0 "sequential" odd_world
           odd_dict Hne eq_refl eq_refl).
  - vm_compute. reflexivity.
  - intros z. rewrite Hidx. discriminate.
  - intros b. rewrite Hidx. discriminate.
Defined.

Lemma unknown_order_is_sequential_witness :
  (get_next_wallpaper String.leb 0 "shuffle" (recorded_world 0 3 true)).1 =
  (get_next_wallpaper String.leb 0 "sequential" (recorded_world 0 3 true)).1.
Proof.
  apply (unknown_order_is_sequential String.leb 0 "shuffle"
           (recorded_world 0 3 true) eq_refl).
Defined.

Lemma random_reaches_every_other_index_witness :
  exists rnd, select_index rnd "random" 3 (JInt 0) = Ok (NInt 2).
Proof.
  apply (random_reaches_every_other_index 3 (JInt 0) 2); [lia|lia|reflexivity].
Defined.

Lemma consecutive_random_differs_witness :
  (1 < length (image_listing String.leb fresh_world))%nat /\
  (get_next_wallpaper String.leb 0 "sequential" fresh_world).1 = Ok (Some "a.png") /\
  exists p',
    (get_next_wallpaper String.leb 0 "random"
       (get_next_wallpaper String.leb 0 "sequential" fresh_world).2).1 =
      Ok (Some p').
Proof.
  assert (Hn : (1 < length (image_listing String.leb fresh_world))%nat)
    by (vm_compute; lia).
  assert (H : (get_next_wallpaper String.leb 0 "sequential" fresh_world).1 =
              Ok (Some "a.png")) by (vm_compute; reflexivity).
  split; [exact Hn|]. split; [exact H|].
  destruct (consecutive_random_differs String.leb 0 0 "sequential" fresh_world
              default_state "a.png" eq_refl eq_refl Hn H)
    as (i & i' & p' & _ & H2 & _).
  exists p'. exact H2.
Defined.

Lemma set_wallpaper_uses_resolved_path_witness :
  RunPowerShell "a.png" ∈ new_events fresh_world (set_wallpaper "a.png" fresh_world).2 /\
  exists p, resolve fresh_world "a.png" = Ok p /\
            (RunPowerShell "a.png" = RunPowerShell p \/
             RunPowerShell "a.png" = SystemParametersInfoW p).
Proof.
  assert (Hin : RunPowerShell "a.png"
                  ∈ new_events fresh_world (set_wallpaper "a.png" fresh_world).2)
    by (vm_compute; apply list_elem_of_here).
  split; [exact Hin|].
  apply (proj2 (proj2 (set_wallpaper_uses_resolved_path "a.png" fresh_world))
           (RunPowerShell "a.png") Hin eq_refl).
Defined.

Lemma set_wallpaper_failure_is_reported_witness :
  (set_wallpaper "a.png" unresolvable_world).1 = Ok false /\
  exists msg,
    Printed msg ∈ new_events unresolvable_world
                     (set_wallpaper "a.png" unresolvable_world).2.
Proof.
  assert (H : (set_wallpaper "a.png" unresolvable_world).1 = Ok false)
    by reflexivity.
  split; [exact H|].
  apply (proj1 (set_wallpaper_failure_is_reported "a.png" unresolvable_world) H).
Defined.

Lemma get_status_reports_witness :
  recorded_index (dict_of 1 3) = JInt 1 /\
  (get_status String.leb (fun p => p) "wallpapers" (recorded_world 1 3 true)).1 =
    Ok {| total_images := 3;
          status_current_index := JInt 1;
          current_wallpaper := Some "b.JPG";
          status_order := JString "sequential";
          status_wallpaper_folder := "wallpapers" |}.
Proof.
  assert (Hc : recorded_index (dict_of 1 3) = JInt 1) by (vm_compute; reflexivity).
  split; [exact Hc|].
  exact (get_status_reports String.leb (fun p => p) "wallpapers"
           (recorded_world 1 3 true) (dict_of 1 3) 1 eq_refl Hc).
Defined.

Lemma status_after_rotation_witness :
  (get_next_wallpaper String.leb 0 "sequential" fresh_world).1 = Ok (Some "a.png") /\
  exists i,
    (get_status String.leb (fun p => p) "wallpapers"
       (get_next_wallpaper String.leb 0 "sequential" fresh_world).2).1 =
      Ok {| total_images := 3;
            status_current_index := JInt i;
            current_wallpaper := Some "a.png";
            status_order := JString "sequential";
            status_wallpaper_folder := "wallpapers" |}.
Proof.
  assert (H : (get_next_wallpaper String.leb 0 "sequential" fresh_world).1 =
              Ok (Some "a.png")) by (vm_compute; reflexivity).
  split; [exact H|].
  destruct (status_after_rotation String.leb (fun p => p) "wallpapers" 0
              "sequential" fresh_world default_state "a.png" eq_refl eq_refl H)
    as (i & _ & Hst).
  exists i. exact Hst.
Defined.

Lemma get_status_rejects_bad_state_witness :
  recorded_index odd_dict = JString "x" /\
  (get_status String.leb (fun p => p) "wallpapers" odd_world).1 = Raise TypeError /\
  (get_status String.leb (fun p => p) "wallpapers" list_state_world).1 =
    Raise AttributeError.
Proof.
  assert (Hidx : recorded_index odd_dict = JString "x") by (vm_compute; reflexivity).
  split; [exact Hidx|]. split.
  - apply (proj1 (get_status_rejects_bad_state String.leb (fun p => p) "wallpapers"
                    odd_world (JObject odd_dict) eq_refl) odd_dict eq_refl).
    right. left. exists "x". exact Hidx.
  - apply (proj2 (get_status_rejects_bad_state String.leb (fun p => p) "wallpapers"
                    list_state_world (JArray []) eq_refl)).
    discriminate.
Defined.

Lemma rotate_wallpaper_empty_folder_witness :
  image_listing String.leb empty_world = [] /\
  (rotate_wallpaper String.leb (fun p => p) 0 "sequential" true
     {| sworld := empty_world; console := [] |}).1 = Ok false.
Proof.
  assert (Hnil : image_listing String.leb empty_world = []) by reflexivity.
  split; [exact Hnil|].
  rewrite (rotate_wallpaper_empty_folder String.leb (fun p => p) 0 "sequential" true
             {| sworld := empty_world; console := [] |} Hnil).
  reflexivity.
Defined.


Lemma main_queries_change_nothing_witness :
  arg_status status_args = true /\
  sworld (main String.leb (fun p => p) "wallpapers" status_args true probe_missing 0
            {| sworld := recorded_world 1 3 true; console := [] |}).2 =
    recorded_world 1 3 true.
Proof.
  split; [reflexivity|].
  apply (main_queries_change_nothing String.leb (fun p => p) "wallpapers"
           status_args true probe_missing 0
           {| sworld := recorded_world 1 3 true; console := [] |}).
  right. reflexivity.
Defined.

Lemma main_reset_witness :
  (main String.leb (fun p => p) "wallpapers" reset_args true probe_missing 0
     {| sworld := recorded_world 1 3 true; console := [] |}).1 = Ok 0 /\
  (load_state
     (sworld (main String.leb (fun p => p) "wallpapers" reset_args true
                probe_missing 0
                {| sworld := recorded_world 1 3 true; console := [] |}).2)).1 =
    Ok (JObject (<["current_index" := JInt (-1)]> (dict_of 1 3))).
Proof.
  destruct (main_reset String.leb (fun p => p) "wallpapers" reset_args probe_missing 0
              {| sworld := recorded_world 1 3 true; console := [] |} (dict_of 1 3)
              eq_refl eq_refl eq_refl eq_refl) as (H1 & _ & H2 & _).
  split; [exact H1|exact H2].
Defined.

Lemma main_contains_load_failure_witness :
  (load_state undecodable_world).1 = Raise UnicodeDecodeError /\
  (main String.leb (fun p => p) "wallpapers" plain_args true probe_missing 0
     {| sworld := undecodable_world; console := [] |}).1 = Ok 1.
Proof.
  assert (H : (load_state undecodable_world).1 = Raise UnicodeDecodeError)
    by reflexivity.
  split; [exact H|].
  apply (main_contains_load_failure String.leb (fun p => p) "wallpapers" plain_args
           probe_missing 0 {| sworld := undecodable_world; console := [] |}
           UnicodeDecodeError eq_refl eq_refl (or_intror (or_introl eq_refl)) H).
Defined.


(** A run of the command line on the example folder: the helper is missing,
    the native call works, the first image is applied and the exit code
    is 0. *)
Example main_first_run_example :
  (main String.leb (fun p => p) "wallpapers" plain_args true probe_missing 0
     {| sworld := fresh_world; console := [] |}).1 = Ok 0 /\
  console (main String.leb (fun p => p) "wallpapers" plain_args true probe_missing 0
             {| sworld := fresh_world; console := [] |}).2 =
    [Cli CliWarnNoSupport; Cli CliWarnCurrentOnly; Cli CliWarnRunSetup; Cli CliBlank;
     Base (Printed (MsgFolderChanged 3)); Cli (CliSetting "a.png");
     Base (RunPowerShell "a.png");
     Base (Printed (MsgExecutionError FileNotFoundError));
     Base (Printed MsgFallback); Base (SystemParametersInfoW "a.png");
     Cli CliChanged].
Proof. split; vm_compute; reflexivity. Qed.
